(** * Last.fm scrobbles to ListenBrainz import: a shallow embedding

    The script [scrobbles-to-lb-import.py] reads a Last.fm export, keeps the
    completed plays and writes them as ListenBrainz listens, one JSON object
    per line, then stores that file in a ZIP archive.

    Python values are embedded as the inductive type [value]; a Python [str]
    is represented by the bytes of its UTF-8 encoding (Rocq's [string]),
    where a lone surrogate, which [json.load] gives for an escape such as
    [\ud800], stands as the three bytes that the [surrogatepass] error
    handler writes for it; a Python [int] by [Z], a Python [float] by the
    Standard Library's [spec_float], and a [dict] by its items in insertion
    order.  Code that can raise returns a [result]. *)

From Stdlib Require Import ZArith List String Ascii Bool Lia.
From Stdlib Require Import Decimal DecimalString SpecFloat.
From Stdlib Require DecimalPos.
Import ListNotations.

#[local] Set Warnings "-register-all".
#[local] Open Scope string_scope.
#[local] Open Scope Z_scope.

(** ** Python values *)

Inductive value : Type :=
| VNone
| VBool (b : bool)
| VInt (n : Z)
| VFloat (x : spec_float)
| VStr (s : string)
| VList (l : list value)
| VDict (d : list (string * value)).

(** A [dict] with [str] keys: the items, oldest first. *)
Definition dict : Type := list (string * value).

(** The exceptions the script can meet. *)
Inductive exn : Type :=
| TypeError
| ValueError
| OverflowError
| FileNotFoundError
| UnicodeEncodeError.

Inductive result (A : Type) : Type :=
| Ret (a : A)
| Raise (e : exn).

Arguments Ret {A} a.
Arguments Raise {A} e.

(** Applying a function that may raise to the items of a list in
    order: the first that raises ends it. *)
Fixpoint mapM {A B : Type} (f : A -> result B) (l : list A)
    : result (list B) :=
  match l with
  | [] => Ret []
  | x :: rest =>
      match f x with
      | Raise e => Raise e
      | Ret y =>
          match mapM f rest with
          | Raise e => Raise e
          | Ret ys => Ret (y :: ys)
          end
      end
  end.

(** ** Characters *)

Definition dquote : ascii := ascii_of_nat 34.
Definition backslash : ascii := ascii_of_nat 92.
Definition newline : ascii := ascii_of_nat 10.

(** The one-character string holding a double quote. *)
Definition q : string := String dquote EmptyString.
Definition nl : string := String newline EmptyString.

(** A surrogate in the text: the byte 0xED followed by a byte from 0xA0
    on.  Text without one is its own UTF-8 encoding; text with one has
    none. *)
Fixpoint has_surrogate (s : string) : bool :=
  match s with
  | String c (String c' _ as rest) =>
      ((nat_of_ascii c =? 237)%nat && (160 <=? nat_of_ascii c')%nat)
      || has_surrogate rest
  | _ => false
  end.

(** ** Dictionaries *)

Fixpoint lookup (k : string) (d : dict) : option value :=
  match d with
  | [] => None
  | (k', v) :: rest => if String.eqb k k' then Some v else lookup k rest
  end.

(** [d.get(k)]: the value under [k], or Python's [None]. *)
Definition py_get (d : dict) (k : string) : value :=
  match lookup k d with
  | Some v => v
  | None => VNone
  end.

(** [k in d]. *)
Definition py_in (k : string) (d : dict) : bool :=
  match lookup k d with
  | Some _ => true
  | None => false
  end.

(** [del d[k]] where the key is there, [d] itself where it is not. *)
Fixpoint dict_del (k : string) (d : dict) : dict :=
  match d with
  | [] => []
  | (k', v) :: rest =>
      if String.eqb k k' then dict_del k rest else (k', v) :: dict_del k rest
  end.

(** [v == s] for a [str] literal [s]: only a [str] equals a [str]. *)
Definition py_eq_str (v : value) (s : string) : bool :=
  match v with
  | VStr t => String.eqb t s
  | _ => false
  end.

(** ** Text of numbers *)

(** [str(n)] for an [int]: decimal digits, a minus sign when negative. *)
Definition str_of_Z (n : Z) : string := NilZero.string_of_int (Z.to_int n).

Fixpoint join (sep : string) (parts : list string) : string :=
  match parts with
  | [] => EmptyString
  | [p] => p
  | p :: rest => p ++ sep ++ join sep rest
  end.

(** ** [int(...)] *)

(** [int(x)] for a [float]: the value cut toward zero.  A finite
    [spec_float] is [m * 2^e], negated when [s] is set. *)
Definition trunc_float (s : bool) (m : positive) (e : Z) : Z :=
  let a := if 0 <=? e then Z.pos m * 2 ^ e else Z.pos m / 2 ^ (- e) in
  if s then - a else a.

(** C's [isspace] in the C locale, as CPython's [Py_ISSPACE] has it. *)
Definition is_space (c : ascii) : bool :=
  let n := nat_of_ascii c in
  (((9 <=? n) && (n <=? 13)) || (n =? 32))%nat.

Definition digit_value (c : ascii) : option Z :=
  let n := nat_of_ascii c in
  if ((48 <=? n) && (n <=? 57))%nat then Some (Z.of_nat n - 48) else None.

Definition is_underscore (c : ascii) : bool := (nat_of_ascii c =? 95)%nat.

Definition is_ascii (c : ascii) : bool := (nat_of_ascii c <? 128)%nat.

Fixpoint all_ascii (s : string) : bool :=
  match s with
  | EmptyString => true
  | String c r => is_ascii c && all_ascii r
  end.

Fixpoint skip_space (s : string) : string :=
  match s with
  | String c r => if is_space c then skip_space r else s
  | EmptyString => s
  end.

(** The digits of a base-10 literal, single underscores allowed between
    them: the value read, the number of digits, and what follows. *)
Fixpoint scan_digits (s : string) (prev_underscore : bool) (acc : Z)
    (digits : nat) : option (Z * nat * string) :=
  match s with
  | String c r =>
      if is_underscore c then
        if prev_underscore then None else scan_digits r true acc digits
      else
        match digit_value c with
        | Some d => scan_digits r false (10 * acc + d) (S digits)
        | None => if prev_underscore then None else Some (acc, digits, s)
        end
  | EmptyString => if prev_underscore then None else Some (acc, digits, s)
  end.

(** CPython's [PyLong_FromString] in base 10 on ASCII text: blanks, a sign,
    digits, blanks.  [max_str_digits] is the interpreter's limit on the
    number of digits, [0] for none; CPython looks at it only for text of
    more than 640 digits. *)
Definition PyLong_FromString (max_str_digits : nat) (s : string) : option Z :=
  let s1 := skip_space s in
  let '(neg, s2) :=
    match s1 with
    | String "+"%char r => (false, r)
    | String "-"%char r => (true, r)
    | _ => (false, s1)
    end in
  match s2 with
  | String "_"%char _ => None
  | _ =>
      match scan_digits s2 false 0 0 with
      | None => None
      | Some (n, digits, rest) =>
          if (digits =? 0)%nat then None
          else if ((640 <? digits) && (0 <? max_str_digits)
                   && (max_str_digits <? digits))%nat
          then None
          else
            match skip_space rest with
            | EmptyString => Some (if neg then - n else n)
            | String _ _ => None
            end
      end
  end.

(** ** [json.dumps]: text *)

Definition hex_digit (n : nat) : ascii :=
  ascii_of_nat (if (n <? 10)%nat then 48 + n else 87 + n).

(** One character of a JSON string with [ensure_ascii=False]: the quote,
    the backslash and the control characters below 0x20 are escaped, every
    other character stands for itself. *)
Definition escape_char (c : ascii) : string :=
  let n := nat_of_ascii c in
  if (n =? 34)%nat then String backslash q
  else if (n =? 92)%nat then String backslash (String backslash EmptyString)
  else if (n =? 10)%nat then String backslash "n"
  else if (n =? 13)%nat then String backslash "r"
  else if (n =? 9)%nat then String backslash "t"
  else if (n =? 8)%nat then String backslash "b"
  else if (n =? 12)%nat then String backslash "f"
  else if (n <? 32)%nat then
    String backslash
      (String "u" (String "0" (String "0"
        (String (hex_digit (n / 16)) (String (hex_digit (n mod 16)) EmptyString)))))
  else String c EmptyString.

Fixpoint escape (s : string) : string :=
  match s with
  | EmptyString => EmptyString
  | String c r => escape_char c ++ escape r
  end.

Definition encode_basestring (s : string) : string := q ++ escape s ++ q.

(** ** The files and the console *)

Record world : Type := World {
  fs : string -> option string;
  stdout : string
}.

Definition fs_set (p : string) (data : string) (f : string -> option string)
    : string -> option string :=
  fun p' => if String.eqb p' p then Some data else f p'.

(** A computation that reads and writes the world and may raise. *)
Definition M (A : Type) : Type := world -> result A * world.

Definition ret {A : Type} (a : A) : M A := fun w => (Ret a, w).

Definition bind {A B : Type} (c : M A) (k : A -> M B) : M B :=
  fun w =>
    match c w with
    | (Ret a, w') => k a w'
    | (Raise e, w') => (Raise e, w')
    end.

Definition lift {A : Type} (r : result A) : M A := fun w => (r, w).

(** [p.open("r")] and reading the whole file. *)
Definition file_read (p : string) : M string :=
  fun w =>
    match fs w p with
    | Some data => (Ret data, w)
    | None => (Raise FileNotFoundError, w)
    end.

(** [p.open("w")]: the file is made, or emptied. *)
Definition file_create (p : string) : M unit :=
  fun w => (Ret tt, World (fs_set p EmptyString (fs w)) (stdout w)).

(** [out.write(s)] on the text handle of [p], opened with
    [encoding="utf-8"]: the text is encoded as a whole before any of it is
    written, and text with a surrogate cannot be encoded. *)
Definition file_write (p : string) (s : string) : M unit :=
  fun w =>
    if has_surrogate s then (Raise UnicodeEncodeError, w)
    else
      let old := match fs w p with Some data => data | None => EmptyString end in
      (Ret tt, World (fs_set p (old ++ s) (fs w)) (stdout w)).

(** Putting the whole content of [p] in place. *)
Definition file_put (p : string) (data : string) : M unit :=
  fun w => (Ret tt, World (fs_set p data (fs w)) (stdout w)).

(** [print(a, b)]. *)
Definition print (a b : string) : M unit :=
  fun w => (Ret tt, World (fs w) (stdout w ++ a ++ " " ++ b ++ nl)).

Definition INPUT_FILE : string := "scrobbles.json".
Definition OUTPUT_JSONL : string := "listenbrainz_listens.jsonl".
Definition OUTPUT_ZIP : string := "listenbrainz_import.zip".

(** ** A plain archive format

    [zipfile] is a library of Python, taken below as a pair of functions:
    the bytes of an archive with given members, and the members of an
    archive.  This plain format (a mark before each byte, a mark at the end
    of each name and each content) shows that what is assumed of that pair
    can be had. *)

Fixpoint plain_field (s : string) : string :=
  match s with
  | EmptyString => "0"
  | String c r => String "1" (String c (plain_field r))
  end.

Fixpoint plain_zip_bytes (members : list (string * string)) : string :=
  match members with
  | [] => EmptyString
  | (name, data) :: rest =>
      plain_field name ++ plain_field data ++ plain_zip_bytes rest
  end.

Fixpoint plain_fields (s : string) : option (list string) :=
  match s with
  | EmptyString => Some []
  | String "0" r =>
      match plain_fields r with
      | Some fields => Some (EmptyString :: fields)
      | None => None
      end
  | String "1" (String c r) =>
      match plain_fields r with
      | Some (f :: fields) => Some (String c f :: fields)
      | _ => None
      end
  | _ => None
  end.

Fixpoint pair_up (fields : list string) : option (list (string * string)) :=
  match fields with
  | [] => Some []
  | name :: data :: rest =>
      match pair_up rest with
      | Some members => Some ((name, data) :: members)
      | None => None
      end
  | _ => None
  end.

Definition plain_zip_members (archive : string)
    : option (list (string * string)) :=
  match plain_fields archive with
  | Some fields => pair_up fields
  | None => None
  end.

(** ** What the script takes from Python and its libraries

    Beyond what is written out above: [repr] of a [float] and of a [str];
    the rewriting of Unicode digits and blanks to ASCII ones that [int]
    applies to text with a character outside ASCII
    ([_PyUnicode_TransformDecimalAndSpaceToASCII]);
    [sys.get_int_max_str_digits()]; [json.load] on the bytes of a file;
    and [zipfile], writing an archive with deflated members and reading
    one. *)

Class Runtime : Type := {
  float_repr : spec_float -> string;
  str_repr : string -> string;
  decimal_and_space_to_ascii : string -> string;
  int_max_str_digits : nat;
  json_load : string -> result value;
  zip_bytes : list (string * string) -> string;
  zip_members : string -> option (list (string * string))
}.


(** A runtime to run the script on examples: every input file parses to
    [doc], archives are in the plain format. *)
Definition plain_runtime (doc : value) : Runtime := {|
  float_repr := fun _ => "0.0";
  str_repr := fun s => "'" ++ s ++ "'";
  decimal_and_space_to_ascii := fun _ => "?";
  int_max_str_digits := 4300;
  json_load := fun _ => Ret doc;
  zip_bytes := plain_zip_bytes;
  zip_members := plain_zip_members
|}.

(** ** Example records *)

Definition song_a : dict :=
  [("name", VStr "Song A"); ("artist", VStr "Artist A");
   ("album", VDict [("#text", VStr "Album A")]);
   ("date", VDict [("uts", VStr "1000")])].

Definition song_b : dict :=
  [("name", VStr "Song B"); ("artist", VStr "Artist B");
   ("date", VDict [("uts", VStr "2000")]);
   ("@attr", VDict [("nowplaying", VStr "true")])].

Definition export_example : value :=
  VDict [("recenttracks", VDict [("track", VList [VDict song_a; VDict song_b])])].

Definition listen_a : value :=
  VDict [("listened_at", VInt 1000);
         ("track_metadata",
          VDict [("track_name", VStr "Song A");
                 ("artist_name", VStr "Artist A");
                 ("release_name", VStr "Album A")])].

(** The line [json.dumps] gives for [listen_a]. *)
Definition listen_a_line : string :=
  "{" ++ q ++ "listened_at" ++ q ++ ": 1000, "
      ++ q ++ "track_metadata" ++ q ++ ": {"
      ++ q ++ "track_name" ++ q ++ ": " ++ q ++ "Song A" ++ q ++ ", "
      ++ q ++ "artist_name" ++ q ++ ": " ++ q ++ "Artist A" ++ q ++ ", "
      ++ q ++ "release_name" ++ q ++ ": " ++ q ++ "Album A" ++ q ++ "}}".

(** A play marked as in progress with a boolean instead of text. *)
Definition song_flagged : dict :=
  [("name", VStr "Song C"); ("artist", VStr "Artist C");
   ("date", VDict [("uts", VInt 3000)]);
   ("@attr", VDict [("nowplaying", VBool true)])].

(** The binary64 number nearest to 1000.9: 8804009505927987 / 2^43. *)
Definition f1000_9 : spec_float := S754_finite false 8804009505927987 (-43).

Definition song_fractional : dict :=
  [("name", VStr "Song D"); ("artist", VStr "Artist D");
   ("date", VDict [("uts", VFloat f1000_9)])].

Definition song_fractional_playing : dict :=
  [("name", VStr "Song D"); ("artist", VStr "Artist D");
   ("date", VDict [("uts", VFloat f1000_9)]);
   ("@attr", VDict [("nowplaying", VStr "true")])].

(** What [json.load] gives for a number such as [1e999]: infinity. *)
Definition song_infinite : dict :=
  [("name", VStr "Song E"); ("artist", VStr "Artist E");
   ("date", VDict [("uts", VFloat (S754_infinity false))])].

Definition song_infinite_unnamed : dict :=
  [("date", VDict [("uts", VFloat (S754_infinity false))])].

Definition export_infinite : value :=
  VDict [("recenttracks", VDict [("track", VList [VDict song_a; VDict song_infinite])])].

(** The text [json.load] gives for the escape of the lone surrogate
    U+D800, and a record named so. *)
Definition lone_surrogate : string :=
  String (ascii_of_nat 237)
    (String (ascii_of_nat 160) (String (ascii_of_nat 128) EmptyString)).

Definition song_surrogate : dict :=
  [("name", VStr lone_surrogate); ("artist", VStr "Artist F");
   ("date", VDict [("uts", VStr "4000")])].

Definition export_surrogate : value := VList [VDict song_a; VDict song_surrogate].

(** A world holding only the input file. *)
Definition world_with_input (data : string) : world :=
  World (fun p => if String.eqb p INPUT_FILE then Some data else None)
        EmptyString.

(** ** The script *)

Section Script.

Context {rt : Runtime}.

(** *** Builtins *)

Definition int_of_str (s : string) : option Z :=
  if all_ascii s then PyLong_FromString int_max_str_digits s
  else PyLong_FromString int_max_str_digits (decimal_and_space_to_ascii s).

(** [int(v)]. *)
Definition py_int (v : value) : result Z :=
  match v with
  | VInt n => Ret n
  | VBool b => Ret (if b then 1 else 0)
  | VFloat x =>
      match x with
      | S754_zero _ => Ret 0
      | S754_finite s m e => Ret (trunc_float s m e)
      | S754_nan => Raise ValueError
      | S754_infinity _ => Raise OverflowError
      end
  | VStr s =>
      match int_of_str s with
      | Some n => Ret n
      | None => Raise ValueError
      end
  | VNone | VList _ | VDict _ => Raise TypeError
  end.

(** The decimal text of [n] is longer than the interpreter allows: more
    than 640 characters, a limit set, and more digits than the limit. *)
Definition over_digit_limit (n : Z) : bool :=
  ((640 <? String.length (str_of_Z n))
   && (0 <? int_max_str_digits)
   && (int_max_str_digits <? String.length (str_of_Z (Z.abs n))))%nat.

(** [str(n)] and [repr(n)] for an [int]. *)
Definition int_str (n : Z) : result string :=
  if over_digit_limit n then Raise ValueError else Ret (str_of_Z n).

(** [repr(v)]. *)
Fixpoint py_repr (v : value) : result string :=
  match v with
  | VNone => Ret "None"
  | VBool true => Ret "True"
  | VBool false => Ret "False"
  | VInt n => int_str n
  | VFloat x => Ret (float_repr x)
  | VStr s => Ret (str_repr s)
  | VList l =>
      match mapM py_repr l with
      | Raise e => Raise e
      | Ret parts => Ret ("[" ++ join ", " parts ++ "]")
      end
  | VDict d =>
      match
        mapM (fun kv =>
                match py_repr (snd kv) with
                | Raise e => Raise e
                | Ret s => Ret (str_repr (fst kv) ++ ": " ++ s)
                end) d
      with
      | Raise e => Raise e
      | Ret parts => Ret ("{" ++ join ", " parts ++ "}")
      end
  end.

(** [str(v)]. *)
Definition py_str (v : value) : result string :=
  match v with
  | VStr s => Ret s
  | _ => py_repr v
  end.

(** [json.dumps(v, ensure_ascii=False)]; an [int] is written by its
    [repr]. *)
Fixpoint dumps (v : value) : result string :=
  match v with
  | VNone => Ret "null"
  | VBool true => Ret "true"
  | VBool false => Ret "false"
  | VInt n => int_str n
  | VFloat x =>
      match x with
      | S754_nan => Ret "NaN"
      | S754_infinity false => Ret "Infinity"
      | S754_infinity true => Ret "-Infinity"
      | _ => Ret (float_repr x)
      end
  | VStr s => Ret (encode_basestring s)
  | VList l =>
      match mapM dumps l with
      | Raise e => Raise e
      | Ret parts => Ret ("[" ++ join ", " parts ++ "]")
      end
  | VDict d =>
      match
        mapM (fun kv =>
                match dumps (snd kv) with
                | Raise e => Raise e
                | Ret s => Ret (encode_basestring (fst kv) ++ ": " ++ s)
                end) d
      with
      | Raise e => Raise e
      | Ret parts => Ret ("{" ++ join ", " parts ++ "}")
      end
  end.

(** *** The functions of the script *)

Definition get_text (v : value) : result (option string) :=
  match v with
  | VNone => Ret None
  | VStr s => Ret (Some s)
  | VDict d =>
      match py_get d "#text" with
      | VNone => Ret None
      | VStr s => Ret (Some s)
      | inner =>
          match py_str inner with
          | Ret s => Ret (Some s)
          | Raise e => Raise e
          end
      end
  | _ =>
      match py_str v with
      | Ret s => Ret (Some s)
      | Raise e => Raise e
      end
  end.

Definition _ensure_list (v : value) : list value :=
  match v with
  | VNone => []
  | VList l => l
  | _ => [v]
  end.

(** [[x for x in items if isinstance(x, dict)]]. *)
Fixpoint keep_dicts (items : list value) : list dict :=
  match items with
  | [] => []
  | VDict d :: rest => d :: keep_dicts rest
  | _ :: rest => keep_dicts rest
  end.

Definition flatten_tracks (payload : value) : list dict :=
  let items :=
    match payload with
    | VList xs =>
        flat_map (fun x => match x with VList l => l | _ => [x] end) xs
    | VDict p =>
        match py_get p "recenttracks" with
        | VDict recenttracks => _ensure_list (py_get recenttracks "track")
        | _ =>
            if py_in "track" p then _ensure_list (py_get p "track")
            else [payload]
        end
    | _ => []
    end in
  keep_dicts items.

(** [not s] for an [Optional[str]]. *)
Definition falsy (s : option string) : bool :=
  match s with
  | None => true
  | Some EmptyString => true
  | Some (String _ _) => false
  end.

(** The text of an [Optional[str]] that [falsy] has let through. *)
Definition text_or_empty (s : option string) : string :=
  match s with
  | Some t => t
  | None => EmptyString
  end.

Definition track_to_listen (track_obj : dict) : result (option value) :=
  let attr := py_get track_obj "@attr" in
  if match attr with
     | VDict a => py_eq_str (py_get a "nowplaying") "true"
     | _ => false
     end
  then Ret None
  else
    match py_get track_obj "date" with
    | VDict date =>
        match lookup "uts" date with
        | None => Ret None
        | Some uts =>
            match py_int uts with
            | Raise TypeError | Raise ValueError => Ret None
            | Raise e => Raise e
            | Ret listened_at =>
                match get_text (py_get track_obj "name") with
                | Raise e => Raise e
                | Ret track_name =>
                match get_text (py_get track_obj "artist") with
                | Raise e => Raise e
                | Ret artist_name =>
                match get_text (py_get track_obj "album") with
                | Raise e => Raise e
                | Ret album_name =>
                    if falsy track_name || falsy artist_name then Ret None
                    else
                      let track_metadata :=
                        [("track_name", VStr (text_or_empty track_name));
                         ("artist_name", VStr (text_or_empty artist_name))] in
                      let track_metadata :=
                        if falsy album_name then track_metadata
                        else (track_metadata
                               ++ [("release_name",
                                    VStr (text_or_empty album_name))])%list in
                      Ret (Some (VDict [("listened_at", VInt listened_at);
                                        ("track_metadata",
                                         VDict track_metadata)]))
                end end end
            end
        end
    | _ => Ret None
    end.

Notation "x <- c ;; k" := (bind c (fun x => k))
  (at level 61, c at next level, right associativity).
Notation "c ;;; k" := (bind c (fun _ => k))
  (at level 61, right associativity).

(** The loop of [write_listens_jsonl]. *)
Fixpoint write_tracks (output_path : string) (tracks : list dict)
    (written : nat) : M nat :=
  match tracks with
  | [] => ret written
  | t :: rest =>
      listen <- lift (track_to_listen t) ;;
      match listen with
      | None => write_tracks output_path rest written
      | Some l =>
          line <- lift (dumps l) ;;
          file_write output_path (line ++ nl) ;;;
          write_tracks output_path rest (S written)
      end
  end.

Definition write_listens_jsonl (input_path output_path : string) : M nat :=
  data <- file_read input_path ;;
  raw <- lift (json_load data) ;;
  let tracks := flatten_tracks raw in
  file_create output_path ;;;
  write_tracks output_path tracks 0.

(** [ZipFile(zip_path, "w")] makes the archive file at once; leaving the
    [with] block writes the archive, with the members added so far, also
    when [zf.write] has raised.  The two paths are taken to differ, as they
    do in [main]. *)
Definition make_import_zip (jsonl_path zip_path : string) : M unit :=
  file_create zip_path ;;;
  fun w =>
    match file_read jsonl_path w with
    | (Ret data, w') => file_put zip_path (zip_bytes [("listens.jsonl", data)]) w'
    | (Raise e, w') =>
        match file_put zip_path (zip_bytes []) w' with
        | (_, w'') => (Raise e, w'')
        end
    end.

Definition main : M unit :=
  written <- write_listens_jsonl INPUT_FILE OUTPUT_JSONL ;;
  print "Listens written:" (str_of_Z (Z.of_nat written)) ;;;
  make_import_zip OUTPUT_JSONL OUTPUT_ZIP ;;;
  print "Created:" OUTPUT_ZIP.

(** *** The words of the specification *)

(** The record is an in-progress play: it has a mapping under [@attr]
    whose [nowplaying] is the text [true]. *)
Definition now_playing (track_obj : dict) : bool :=
  match py_get track_obj "@attr" with
  | VDict a => py_eq_str (py_get a "nowplaying") "true"
  | _ => false
  end.

(** [release_name], there when the album text is not empty. *)
Definition release_entry (album_name : option string) : dict :=
  match album_name with
  | Some (String c r) => [("release_name", VStr (String c r))]
  | _ => []
  end.

(** The Listen Record with these fields and no other. *)
Definition listen_record (listened_at : Z) (track_name artist_name : string)
    (album_name : option string) : value :=
  VDict [("listened_at", VInt listened_at);
         ("track_metadata",
          VDict (("track_name", VStr track_name)
                 :: ("artist_name", VStr artist_name)
                 :: release_entry album_name))].

(** The Listen Record emitted once the album text is extracted; when that
    extraction raises, so does the converter. *)
Definition emit (listened_at : Z) (track_name artist_name : string)
    (album_name : result (option string)) : result (option value) :=
  match album_name with
  | Ret album => Ret (Some (listen_record listened_at track_name artist_name album))
  | Raise e => Raise e
  end.

(** A value as [json.load] gives it under the interpreter's digit limit:
    no [int] in it is beyond the limit. *)
Fixpoint loadable (v : value) : bool :=
  match v with
  | VInt n => negb (over_digit_limit n)
  | VList l => forallb loadable l
  | VDict d => forallb (fun kv => loadable (snd kv)) d
  | _ => true
  end.

(** What [get_text] turns into text: the value itself, or for a mapping
    what it holds under [#text]. *)
Definition text_source (v : value) : value :=
  match v with
  | VDict d => py_get d "#text"
  | _ => v
  end.

(** The three texts of a record, extracted in the order of the source:
    name, artist, album. *)
Definition texts (track_obj : dict)
    : result (option string * option string * option string) :=
  match get_text (py_get track_obj "name") with
  | Raise e => Raise e
  | Ret track_name =>
      match get_text (py_get track_obj "artist") with
      | Raise e => Raise e
      | Ret artist_name =>
          match get_text (py_get track_obj "album") with
          | Raise e => Raise e
          | Ret album_name => Ret (track_name, artist_name, album_name)
          end
      end
  end.

(** The name, the artist and the album of a record can be turned into
    text: none holds, where [get_text] looks, an [int] beyond the digit
    limit. *)
Definition fields_loadable (track_obj : dict) : bool :=
  loadable (text_source (py_get track_obj "name"))
  && loadable (text_source (py_get track_obj "artist"))
  && loadable (text_source (py_get track_obj "album")).

(** A number with a fractional part: finite and not whole. *)
Definition has_fraction (x : spec_float) : bool :=
  match x with
  | S754_finite _ m e => (e <? 0) && negb (Z.pos m mod 2 ^ (- e) =? 0)
  | _ => false
  end.

(** The accepted listens of a sequence of records, in order, when no
    conversion raises. *)
Fixpoint listens_of (tracks : list dict) : result (list value) :=
  match tracks with
  | [] => Ret []
  | t :: rest =>
      match track_to_listen t with
      | Raise e => Raise e
      | Ret o =>
          match listens_of rest with
          | Raise e => Raise e
          | Ret ls => Ret (match o with Some l => l :: ls | None => ls end)
          end
      end
  end.

(** A record has the line [line] and the UTF-8 file can hold it. *)
Definition line_of (record : value) (line : string) : Prop :=
  dumps record = Ret line /\ has_surrogate line = false.

(** Contract A: the lines, each closed by a newline. *)
Fixpoint jsonl (lines : list string) : string :=
  match lines with
  | [] => EmptyString
  | l :: rest => l ++ nl ++ jsonl rest
  end.

(** What a run over [tracks] has written when it ends or raises. *)
Fixpoint emitted (tracks : list dict) : string :=
  match tracks with
  | [] => EmptyString
  | t :: rest =>
      match track_to_listen t with
      | Raise _ => EmptyString
      | Ret None => emitted rest
      | Ret (Some l) =>
          match dumps l with
          | Raise _ => EmptyString
          | Ret line =>
              if has_surrogate (line ++ nl) then EmptyString
              else line ++ nl ++ emitted rest
          end
      end
  end.

(** How that run ends: the count, or the exception. *)
Fixpoint outcome (tracks : list dict) (written : nat) : result nat :=
  match tracks with
  | [] => Ret written
  | t :: rest =>
      match track_to_listen t with
      | Raise e => Raise e
      | Ret None => outcome rest written
      | Ret (Some l) =>
          match dumps l with
          | Raise e => Raise e
          | Ret line =>
              if has_surrogate (line ++ nl) then Raise UnicodeEncodeError
              else outcome rest (S written)
          end
      end
  end.

Fixpoint count_char (c : ascii) (s : string) : nat :=
  match s with
  | EmptyString => 0%nat
  | String c' r => ((if Ascii.eqb c' c then 1 else 0) + count_char c r)%nat
  end.

(** The lines of a text: those closed by a newline, and what is left. *)
Fixpoint lines (s : string) : list string * string :=
  match s with
  | EmptyString => ([], EmptyString)
  | String c r =>
      let '(ls, rest) := lines r in
      if Ascii.eqb c newline then (EmptyString :: ls, rest)
      else
        match ls with
        | [] => ([], String c rest)
        | l :: ls' => (String c l :: ls', rest)
        end
  end.

(** What [main] leaves in the JSONL file, from the input file and what the
    JSONL file held before. *)
Definition jsonl_after (input old : option string) : option string :=
  match input with
  | None => old
  | Some data =>
      match json_load data with
      | Raise _ => old
      | Ret raw => Some (emitted (flatten_tracks raw))
      end
  end.

(** How [main] ends, from the input file. *)
Definition main_outcome (input : option string) : result unit :=
  match input with
  | None => Raise FileNotFoundError
  | Some data =>
      match json_load data with
      | Raise e => Raise e
      | Ret raw =>
          match outcome (flatten_tracks raw) 0 with
          | Raise e => Raise e
          | Ret _ => Ret tt
          end
      end
  end.

(** The number that decimal digits stand for, read after [acc]. *)
Fixpoint uint_value (d : uint) (acc : Z) : Z :=
  match d with
  | Nil => acc
  | D0 l => uint_value l (10 * acc + 0)
  | D1 l => uint_value l (10 * acc + 1)
  | D2 l => uint_value l (10 * acc + 2)
  | D3 l => uint_value l (10 * acc + 3)
  | D4 l => uint_value l (10 * acc + 4)
  | D5 l => uint_value l (10 * acc + 5)
  | D6 l => uint_value l (10 * acc + 6)
  | D7 l => uint_value l (10 * acc + 7)
  | D8 l => uint_value l (10 * acc + 8)
  | D9 l => uint_value l (10 * acc + 9)
  end.

(** How many of the records are skipped. *)
Fixpoint skipped (tracks : list dict) : nat :=
  match tracks with
  | [] => 0%nat
  | t :: rest =>
      match track_to_listen t with
      | Ret None => S (skipped rest)
      | _ => skipped rest
      end
  end.

(** The line of a Listen Record, written out. *)
Definition listen_line (listened_at : Z) (track_name artist_name : string)
    (album_name : option string) : string :=
  "{" ++ q ++ "listened_at" ++ q ++ ": " ++ str_of_Z listened_at ++ ", "
      ++ q ++ "track_metadata" ++ q ++ ": {"
      ++ q ++ "track_name" ++ q ++ ": " ++ q ++ escape track_name ++ q ++ ", "
      ++ q ++ "artist_name" ++ q ++ ": " ++ q ++ escape artist_name ++ q
      ++ match album_name with
         | Some (String c r) =>
             ", " ++ q ++ "release_name" ++ q ++ ": "
                  ++ q ++ escape (String c r) ++ q
         | _ => EmptyString
         end
      ++ "}}".

(** A payload element that is a mapping, or a sequence of mappings. *)
Definition item_value (item : dict + list dict) : value :=
  match item with
  | inl d => VDict d
  | inr group => VList (map VDict group)
  end.

Definition item_records (item : dict + list dict) : list dict :=
  match item with
  | inl d => [d]
  | inr group => group
  end.

(** ** Values as [json.load] gives them *)

Lemma value_nested_ind (P : value -> Prop) :
  P VNone ->
  (forall b, P (VBool b)) ->
  (forall n, P (VInt n)) ->
  (forall x, P (VFloat x)) ->
  (forall s, P (VStr s)) ->
  (forall l, Forall P l -> P (VList l)) ->
  (forall d, Forall (fun kv => P (snd kv)) d -> P (VDict d)) ->
  forall v, P v.
Proof.
  intros HN HB HI HF HS HL HD.
  fix IH 1. intros [|b|n|x|s|l|d].
  - exact HN.
  - apply HB.
  - apply HI.
  - apply HF.
  - apply HS.
  - apply HL. induction l as [|v l IHl]; constructor; [apply IH | exact IHl].
  - apply HD. induction d as [|kv d IHd]; constructor; [apply IH | exact IHd].
Qed.

Lemma mapM_all {A : Type} (f : A -> result string) (ok : A -> bool)
    (l : list A) :
  Forall (fun x => if ok x then exists s, f x = Ret s
                   else f x = Raise ValueError) l ->
  if forallb ok l then exists ss, mapM f l = Ret ss
  else mapM f l = Raise ValueError.
Proof.
  induction 1 as [|x l Hx _ IH]; simpl; [now exists []|].
  destruct (ok x); simpl.
  - destruct Hx as [s ->]. destruct (forallb ok l).
    + destruct IH as [ss ->]. now exists (s :: ss).
    + now rewrite IH.
  - now rewrite Hx.
Qed.

(** [repr] returns on a value with no [int] beyond the digit limit, and
    raises [ValueError] on any other. *)
Lemma py_repr_loadable (v : value) :
  if loadable v then exists s, py_repr v = Ret s
  else py_repr v = Raise ValueError.
Proof.
  induction v as [|b|n|x|s|l IH|d IH] using value_nested_ind;
    cbn [loadable py_repr]; try (eexists; reflexivity).
  - destruct b; eexists; reflexivity.
  - unfold int_str. destruct (over_digit_limit n); simpl;
      [reflexivity | eexists; reflexivity].
  - pose proof (mapM_all py_repr loadable l IH) as H.
    destruct (forallb loadable l).
    + destruct H as [ss ->]. eexists; reflexivity.
    + now rewrite H.
  - pose proof (mapM_all
                  (fun kv => match py_repr (snd kv) with
                             | Raise e => Raise e
                             | Ret s => Ret (str_repr (fst kv) ++ ": " ++ s)
                             end)
                  (fun kv => loadable (snd kv)) d) as H.
    assert (Hd : Forall
                   (fun kv =>
                      if loadable (snd kv)
                      then exists s,
                          match py_repr (snd kv) with
                          | Raise e => Raise e
                          | Ret s => Ret (str_repr (fst kv) ++ ": " ++ s)
                          end = Ret s
                      else match py_repr (snd kv) with
                           | Raise e => Raise e
                           | Ret s => Ret (str_repr (fst kv) ++ ": " ++ s)
                           end = Raise ValueError) d).
    { eapply Forall_impl; [|exact IH]. intros kv Hkv. cbv beta in Hkv.
      revert Hkv. destruct (loadable (snd kv)); intros Hkv.
      - destruct Hkv as [s ->]. eexists; reflexivity.
      - now rewrite Hkv. }
    specialize (H Hd).
    destruct (forallb (fun kv => loadable (snd kv)) d).
    + destruct H as [ss ->]. eexists; reflexivity.
    + now rewrite H.
Qed.

(** [get_text] returns unless what it turns into text holds an [int]
    beyond the digit limit, and then it raises [ValueError]. *)
Lemma get_text_loadable (v : value) :
  if loadable (text_source v) then exists o, get_text v = Ret o
  else get_text v = Raise ValueError.
Proof.
  assert (H : forall u,
             if loadable u
             then exists o, match py_str u with
                            | Ret s => Ret (Some s)
                            | Raise e => Raise e
                            end = Ret o
             else match py_str u with
                  | Ret s => Ret (Some s)
                  | Raise e => Raise e
                  end = @Raise (option string) ValueError).
  { intros u. pose proof (py_repr_loadable u) as Hu.
    destruct u as [|b|n|x|s|l|d]; cbn [py_str];
      try (revert Hu; destruct (loadable _); intros Hu;
           [destruct Hu as [s0 ->]; eexists; reflexivity
           | rewrite Hu; reflexivity]).
    cbn [loadable]. eexists; reflexivity. }
  destruct v as [|b|n|x|s|l|d]; cbn [text_source get_text];
    try (eexists; reflexivity);
    try apply (H (VBool b)); try apply (H (VInt n)); try apply (H (VFloat x));
    try apply (H (VList l)).
  destruct (py_get d "#text") as [|b|n|x|s|l|m] eqn:E;
    try (eexists; reflexivity);
    try apply (H (VBool b)); try apply (H (VInt n)); try apply (H (VFloat x));
    try apply (H (VList l)); try apply (H (VDict m)).
Qed.

Lemma loadable_lookup (k : string) (d : dict) (v : value) :
  loadable (VDict d) = true -> lookup k d = Some v -> loadable v = true.
Proof.
  cbn [loadable]. induction d as [|[k' v'] d IH]; simpl; [discriminate|].
  intros H. apply andb_prop in H. destruct H as [Hv Hd].
  destruct (String.eqb k k'); [now intros [= <-] | now apply IH].
Qed.

Lemma loadable_py_get (k : string) (d : dict) :
  loadable (VDict d) = true -> loadable (py_get d k) = true.
Proof.
  intros H. unfold py_get. destruct (lookup k d) as [v|] eqn:E;
    [now apply (loadable_lookup k d) | reflexivity].
Qed.

(** The text of a field of a record as [json.load] gives it is extracted
    without an exception. *)
Lemma get_text_field (track_obj : dict) (k : string) :
  loadable (py_get track_obj k) = true ->
  exists o, get_text (py_get track_obj k) = Ret o.
Proof.
  intros H. pose proof (get_text_loadable (py_get track_obj k)) as G.
  assert (E : loadable (text_source (py_get track_obj k)) = true).
  { destruct (py_get track_obj k) as [| | | | | |d]; try exact H.
    now apply loadable_py_get. }
  now rewrite E in G.
Qed.

(** ** Properties of the converter *)

Lemma track_to_listen_eq (track_obj : dict) :
  track_to_listen track_obj =
  if now_playing track_obj then Ret None
  else
    match py_get track_obj "date" with
    | VDict date =>
        match lookup "uts" date with
        | None => Ret None
        | Some uts =>
            match py_int uts with
            | Raise TypeError | Raise ValueError => Ret None
            | Raise e => Raise e
            | Ret listened_at =>
                match texts track_obj with
                | Raise e => Raise e
                | Ret (track_name, artist_name, album_name) =>
                    if falsy track_name || falsy artist_name then Ret None
                    else
                      Ret (Some (listen_record listened_at
                                   (text_or_empty track_name)
                                   (text_or_empty artist_name)
                                   album_name))
                end
            end
        end
    | _ => Ret None
    end.
Proof.
  unfold track_to_listen, now_playing, texts, listen_record, release_entry.
  destruct (match py_get track_obj "@attr" with VDict _ => _ | _ => _ end);
    [reflexivity|].
  destruct (py_get track_obj "date"); try reflexivity.
  destruct (lookup "uts" d); try reflexivity.
  destruct (py_int v) as [n|e]; try reflexivity.
  destruct (get_text (py_get track_obj "name")) as [tn|]; [|reflexivity].
  destruct (get_text (py_get track_obj "artist")) as [an|]; [|reflexivity].
  destruct (get_text (py_get track_obj "album")) as [[[|c r]|]|];
    try reflexivity; cbv zeta;
    destruct (falsy tn || falsy an); reflexivity.
Qed.

Lemma falsy_false (s : option string) :
  falsy s = false -> exists t, s = Some t /\ t <> EmptyString.
Proof.
  destruct s as [[|c r]|]; simpl; try discriminate.
  intros _. exists (String c r). split; [reflexivity | discriminate].
Qed.

Lemma falsy_some (t : string) : t <> EmptyString -> falsy (Some t) = false.
Proof. destruct t; [intros H; now elim H | reflexivity]. Qed.

(** A record that passes every check is emitted, with these fields, once
    its album text is extracted. *)
Lemma track_to_listen_emits (track_obj date : dict) (uts : value)
    (listened_at : Z) (track_name artist_name : string) :
  now_playing track_obj = false ->
  py_get track_obj "date" = VDict date ->
  lookup "uts" date = Some uts ->
  py_int uts = Ret listened_at ->
  get_text (py_get track_obj "name") = Ret (Some track_name) ->
  track_name <> EmptyString ->
  get_text (py_get track_obj "artist") = Ret (Some artist_name) ->
  artist_name <> EmptyString ->
  track_to_listen track_obj =
  emit listened_at track_name artist_name
    (get_text (py_get track_obj "album")).
Proof.
  intros Hnp Hdate Huts Hint Hname Hne1 Hartist Hne2.
  rewrite track_to_listen_eq, Hnp, Hdate, Huts, Hint.
  unfold texts, emit. rewrite Hname, Hartist.
  destruct (get_text (py_get track_obj "album")) as [al|e]; [|reflexivity].
  rewrite (falsy_some _ Hne1), (falsy_some _ Hne2). reflexivity.
Qed.

(** C1: every Listen Record the converter emits has an integer
    [listened_at] and, under [track_metadata], a non-empty [track_name], a
    non-empty [artist_name] and a [release_name] exactly when the album
    text is not empty, and nothing else; and the record it comes from has
    passed every eligibility check. *)
Theorem track_to_listen_record (track_obj : dict) (listen : value) :
  track_to_listen track_obj = Ret (Some listen) ->
  exists (date : dict) (uts : value) (listened_at : Z)
         (track_name artist_name : string) (album_name : option string),
    now_playing track_obj = false /\
    py_get track_obj "date" = VDict date /\
    lookup "uts" date = Some uts /\
    py_int uts = Ret listened_at /\
    get_text (py_get track_obj "name") = Ret (Some track_name) /\
    track_name <> EmptyString /\
    get_text (py_get track_obj "artist") = Ret (Some artist_name) /\
    artist_name <> EmptyString /\
    get_text (py_get track_obj "album") = Ret album_name /\
    listen = listen_record listened_at track_name artist_name album_name /\
    (lookup "release_name" (release_entry album_name) <> None <->
     exists album, album_name = Some album /\ album <> EmptyString).
Proof.
  rewrite track_to_listen_eq.
  destruct (now_playing track_obj) eqn:Hnp; [discriminate|].
  destruct (py_get track_obj "date") as [| | | | |?|date] eqn:Hdate;
    try discriminate.
  destruct (lookup "uts" date) as [uts|] eqn:Huts; [|discriminate].
  destruct (py_int uts) as [n|[]] eqn:Hint; try discriminate.
  unfold texts.
  destruct (get_text (py_get track_obj "name")) as [otn|] eqn:Hname;
    [|discriminate].
  destruct (get_text (py_get track_obj "artist")) as [oan|] eqn:Hartist;
    [|discriminate].
  destruct (get_text (py_get track_obj "album")) as [al|] eqn:Halbum;
    [|discriminate].
  destruct (falsy otn) eqn:Hn; [discriminate|].
  destruct (falsy oan) eqn:Ha; [discriminate|].
  simpl. intros [= <-].
  destruct (falsy_false _ Hn) as (tn & -> & Ntn).
  destruct (falsy_false _ Ha) as (an & -> & Nan).
  exists date, uts, n, tn, an, al. simpl.
  repeat (split; [solve [auto]|]).
  destruct al as [[|c r]|]; simpl.
  - split; [intros H; now elim H | intros (a & [= <-] & H); now elim H].
  - split; [intros _; exists (String c r); split; [reflexivity|discriminate]
           | discriminate].
  - split; [intros H; now elim H | intros (a & E & _); discriminate].
Qed.

Lemma py_get_dict_del_other (k k' : string) (d : dict) :
  k <> k' -> py_get (dict_del k d) k' = py_get d k'.
Proof.
  intros Hk. unfold py_get. induction d as [|[k0 v] d IH]; simpl; [reflexivity|].
  destruct (String.eqb k k0) eqn:E.
  - apply String.eqb_eq in E. subst k0.
    destruct (String.eqb k' k) eqn:E'; [|exact IH].
    apply String.eqb_eq in E'. congruence.
  - simpl. destruct (String.eqb k' k0); [reflexivity | exact IH].
Qed.

Lemma py_get_dict_del_same (k : string) (d : dict) :
  py_get (dict_del k d) k = VNone.
Proof.
  unfold py_get. induction d as [|[k0 v] d IH]; simpl; [reflexivity|].
  destruct (String.eqb k k0) eqn:E; [exact IH|].
  simpl. rewrite E. exact IH.
Qed.

(** C3: a record with an [@attr] mapping whose [nowplaying] is the text
    [true] is skipped whatever else it holds; the comparison is on text, so
    with a boolean under [nowplaying] the record is converted as if it had
    no [@attr] at all. *)
Theorem now_playing_text_skips (track_obj attr : dict) :
  py_get track_obj "@attr" = VDict attr ->
  (py_get attr "nowplaying" = VStr "true" ->
   track_to_listen track_obj = Ret None) /\
  (forall b : bool,
     py_get attr "nowplaying" = VBool b ->
     track_to_listen track_obj = track_to_listen (dict_del "@attr" track_obj)).
Proof.
  intros Hattr. split.
  - intros Hnp. rewrite track_to_listen_eq. unfold now_playing.
    rewrite Hattr, Hnp. reflexivity.
  - intros b Hnp. rewrite !track_to_listen_eq. unfold now_playing, texts.
    rewrite Hattr, Hnp, py_get_dict_del_same. simpl.
    rewrite !py_get_dict_del_other by discriminate. reflexivity.
Qed.

(** ** Properties of the normalizer *)

(** C7: a single mapping under [track] is normalized as the one-element
    sequence holding it; and [_ensure_list] sends [None] to the empty
    sequence, a sequence to itself and any other value to the sequence
    holding just that value. *)
Theorem track_scalar_as_singleton (m other : dict) (v : value) :
  flatten_tracks (VDict [("track", VDict m)])
  = flatten_tracks (VDict [("track", VList [VDict m])])
  /\ flatten_tracks (VDict [("track", VDict m)]) = [m]
  /\ flatten_tracks (VDict (("track", VDict m) :: other))
     = flatten_tracks (VDict (("track", VList [VDict m]) :: other))
  /\ flatten_tracks (VDict [("recenttracks", VDict (("track", VDict m) :: other))])
     = flatten_tracks
         (VDict [("recenttracks", VDict (("track", VList [VDict m]) :: other))])
  /\ _ensure_list (VDict m) = _ensure_list (VList [VDict m])
  /\ _ensure_list v =
     match v with
     | VNone => []
     | VList l => l
     | VBool _ | VInt _ | VFloat _ | VStr _ | VDict _ => [v]
     end.
Proof.
  repeat split; reflexivity.
Qed.

(** ** The timestamp *)

(** [trunc_float] cuts toward zero: below the binary point it is the
    quotient of the signed mantissa that rounds toward zero. *)
Lemma trunc_float_quot (s : bool) (m : positive) (e : Z) :
  e < 0 ->
  trunc_float s m e
  = Z.quot (if s then Z.neg m else Z.pos m) (2 ^ (- e)).
Proof.
  intros He. unfold trunc_float.
  destruct (0 <=? e) eqn:E; [apply Z.leb_le in E; lia|].
  assert (Hd : 0 < 2 ^ (- e)) by (apply Z.pow_pos_nonneg; lia).
  destruct s.
  - change (Z.neg m) with (- Z.pos m).
    rewrite Z.quot_opp_l by lia.
    rewrite Z.quot_div_nonneg by lia. reflexivity.
  - rewrite Z.quot_div_nonneg by lia. reflexivity.
Qed.

Lemma has_fraction_finite (x : spec_float) :
  has_fraction x = true ->
  exists s m e, x = S754_finite s m e /\ e < 0.
Proof.
  destruct x as [| | |s m e]; simpl; try discriminate.
  intros H. apply andb_prop in H. destruct H as [H _].
  apply Z.ltb_lt in H. now exists s, m, e.
Qed.

(** C10, amended: a record that is not an in-progress play, whose
    [date.uts] is a number with a fractional part and whose name and artist
    give non-empty text, is not skipped: the Listen Record emitted has that
    number cut toward zero as [listened_at].  (The record is emitted once
    its album text is extracted, which no album of a record that
    [json.load] gave can fail.) *)
Theorem fractional_uts_truncated (track_obj date : dict) (s : bool)
    (m : positive) (e : Z) (track_name artist_name : string) :
  now_playing track_obj = false ->
  py_get track_obj "date" = VDict date ->
  lookup "uts" date = Some (VFloat (S754_finite s m e)) ->
  has_fraction (S754_finite s m e) = true ->
  get_text (py_get track_obj "name") = Ret (Some track_name) ->
  track_name <> EmptyString ->
  get_text (py_get track_obj "artist") = Ret (Some artist_name) ->
  artist_name <> EmptyString ->
  track_to_listen track_obj <> Ret None
  /\ track_to_listen track_obj
     = emit (Z.quot (if s then Z.neg m else Z.pos m) (2 ^ (- e)))
         track_name artist_name (get_text (py_get track_obj "album"))
  /\ (loadable (py_get track_obj "album") = true ->
      exists album_name,
        track_to_listen track_obj
        = Ret (Some (listen_record
                       (Z.quot (if s then Z.neg m else Z.pos m) (2 ^ (- e)))
                       track_name artist_name album_name))).
Proof.
  intros Hnp Hdate Huts Hfrac Hname Hne1 Hartist Hne2.
  destruct (has_fraction_finite _ Hfrac) as (s' & m' & e' & [= <- <- <-] & He).
  rewrite <- trunc_float_quot by exact He.
  assert (E : track_to_listen track_obj
              = emit (trunc_float s m e) track_name artist_name
                  (get_text (py_get track_obj "album"))).
  { apply track_to_listen_emits with (date := date)
                                     (uts := VFloat (S754_finite s m e)); auto. }
  rewrite E. unfold emit. split; [|split; [reflexivity|]].
  - destruct (get_text (py_get track_obj "album")); discriminate.
  - intros Hl. destruct (get_text_field track_obj "album" Hl) as [o ->].
    now exists o.
Qed.

(** ** Records that are skipped *)

Lemma skip_without_date (track_obj : dict) :
  (forall date, py_get track_obj "date" = VDict date -> lookup "uts" date = None) ->
  track_to_listen track_obj = Ret None.
Proof.
  intros H. rewrite track_to_listen_eq.
  destruct (now_playing track_obj); [reflexivity|].
  destruct (py_get track_obj "date") as [| | | | |?|date]; try reflexivity.
  rewrite (H date eq_refl). reflexivity.
Qed.

Lemma skip_uts_not_integer (track_obj date : dict) (uts : value) (e : exn) :
  py_get track_obj "date" = VDict date ->
  lookup "uts" date = Some uts ->
  py_int uts = Raise e ->
  e = TypeError \/ e = ValueError ->
  track_to_listen track_obj = Ret None.
Proof.
  intros Hdate Huts Hint He. rewrite track_to_listen_eq.
  destruct (now_playing track_obj); [reflexivity|].
  rewrite Hdate, Huts, Hint. destruct He; subst e; reflexivity.
Qed.

Lemma skip_without_names (track_obj date : dict) (uts : value) (n : Z)
    (track_name artist_name album_name : option string) :
  py_get track_obj "date" = VDict date ->
  lookup "uts" date = Some uts ->
  py_int uts = Ret n ->
  texts track_obj = Ret (track_name, artist_name, album_name) ->
  falsy track_name = true \/ falsy artist_name = true ->
  track_to_listen track_obj = Ret None.
Proof.
  intros Hdate Huts Hint Ht Hf. rewrite track_to_listen_eq.
  destruct (now_playing track_obj); [reflexivity|].
  rewrite Hdate, Huts, Hint, Ht.
  destruct Hf as [-> | ->]; [reflexivity|].
  rewrite orb_true_r. reflexivity.
Qed.

Lemma py_int_raises (v : value) (e : exn) :
  py_int v = Raise e ->
  match e with
  | TypeError => True
  | ValueError => True
  | OverflowError => exists s, v = VFloat (S754_infinity s)
  | FileNotFoundError => False
  | UnicodeEncodeError => False
  end.
Proof.
  destruct v as [|b|n|x|s|l|d]; simpl; try discriminate;
    try (intros [= <-]; exact I).
  - destruct x as [| s | |]; try discriminate; intros [= <-];
      [now exists s | exact I].
  - destruct (int_of_str s); [discriminate|]. intros [= <-]. exact I.
Qed.

(** C2: at a record whose [date.uts] is an infinite number and that has
    neither name nor artist, [date.uts] cannot be read as an integer and
    the name text is [None], yet the converter does not yield SKIP: the
    [OverflowError] of [int] is not among the exceptions it catches. *)
Theorem infinite_uts_not_skipped :
  py_int (VFloat (S754_infinity false)) = Raise OverflowError
  /\ get_text (py_get song_infinite_unnamed "name") = Ret None
  /\ track_to_listen song_infinite_unnamed = Raise OverflowError
  /\ track_to_listen song_infinite_unnamed <> Ret None.
Proof. repeat split; try reflexivity. discriminate. Qed.

(** ** Text *)

Lemma append_assoc (a b c : string) : (a ++ b) ++ c = a ++ b ++ c.
Proof. induction a as [|x a IH]; simpl; [reflexivity | now rewrite IH]. Qed.

Lemma append_nil_r (a : string) : a ++ EmptyString = a.
Proof. induction a as [|x a IH]; simpl; [reflexivity | now rewrite IH]. Qed.

Lemma count_char_app (c : ascii) (a b : string) :
  count_char c (a ++ b) = (count_char c a + count_char c b)%nat.
Proof.
  induction a as [|x a IH]; simpl; [reflexivity|]. rewrite IH. lia.
Qed.

Lemma escape_char_no_newline (c : ascii) :
  count_char newline (escape_char c) = 0%nat.
Proof. destruct c as [[] [] [] [] [] [] [] []]; reflexivity. Qed.

Lemma escape_no_newline (s : string) : count_char newline (escape s) = 0%nat.
Proof.
  induction s as [|c s IH]; simpl; [reflexivity|].
  now rewrite count_char_app, escape_char_no_newline, IH.
Qed.

Lemma encode_basestring_no_newline (s : string) :
  count_char newline (encode_basestring s) = 0%nat.
Proof.
  unfold encode_basestring.
  now rewrite !count_char_app, escape_no_newline.
Qed.

Lemma string_of_uint_no_newline (d : uint) :
  count_char newline (NilEmpty.string_of_uint d) = 0%nat.
Proof. induction d; simpl; auto. Qed.

Lemma str_of_Z_no_newline (n : Z) : count_char newline (str_of_Z n) = 0%nat.
Proof.
  unfold str_of_Z, NilZero.string_of_int, NilZero.string_of_uint.
  destruct (Z.to_int n) as [d|d]; destruct d; simpl;
    try reflexivity; apply string_of_uint_no_newline.
Qed.

(** A character outside ASCII is written as it is. *)
Lemma escape_char_non_ascii (c : ascii) :
  is_ascii c = false -> escape_char c = String c EmptyString.
Proof.
  destruct c as [[] [] [] [] [] [] [] []]; try discriminate; reflexivity.
Qed.

Lemma escape_non_ascii (s : string) :
  (forall c, count_char c s <> 0%nat -> is_ascii c = false) ->
  escape s = s.
Proof.
  induction s as [|c s IH]; simpl; [reflexivity|].
  intros H. rewrite escape_char_non_ascii, IH; [reflexivity| |].
  - intros c' Hc'. apply H. destruct (Ascii.eqb c c'); simpl; lia.
  - apply H. rewrite Ascii.eqb_refl. simpl. lia.
Qed.

Lemma lines_line (s t : string) :
  count_char newline s = 0%nat ->
  lines (s ++ nl ++ t) = (s :: fst (lines t), snd (lines t)).
Proof.
  change (nl ++ t) with (String newline t).
  induction s as [|c s IH]; simpl.
  - intros _. destruct (lines t); reflexivity.
  - destruct (Ascii.eqb c newline) eqn:E; simpl; [discriminate|].
    intros H. rewrite (IH H). reflexivity.
Qed.

(** The newline that closes a line makes no surrogate with the line's
    last byte. *)
Lemma has_surrogate_cons (c c' : ascii) (r : string) :
  has_surrogate (String c (String c' r))
  = ((nat_of_ascii c =? 237)%nat && (160 <=? nat_of_ascii c')%nat)
    || has_surrogate (String c' r).
Proof. reflexivity. Qed.

Lemma has_surrogate_line (l : string) :
  has_surrogate (l ++ nl) = has_surrogate l.
Proof.
  induction l as [|c l IH]; [reflexivity|].
  destruct l as [|c' l].
  - change (String c EmptyString ++ nl)
      with (String c (String newline EmptyString)).
    rewrite has_surrogate_cons.
    change (160 <=? nat_of_ascii newline)%nat with false.
    now rewrite andb_false_r.
  - change (String c (String c' l) ++ nl)
      with (String c (String c' (l ++ nl))).
    rewrite !has_surrogate_cons.
    change (String c' (l ++ nl)) with (String c' l ++ nl).
    now rewrite IH.
Qed.

(** ** Properties of the serializer *)

Lemma track_to_listen_some (track_obj : dict) (listen : value) :
  track_to_listen track_obj = Ret (Some listen) ->
  exists listened_at track_name artist_name album_name,
    listen = listen_record listened_at track_name artist_name album_name.
Proof.
  rewrite track_to_listen_eq.
  destruct (now_playing track_obj); [discriminate|].
  destruct (py_get track_obj "date") as [| | | | |?|date]; try discriminate.
  destruct (lookup "uts" date) as [uts|]; [|discriminate].
  destruct (py_int uts) as [n|[]]; try discriminate.
  destruct (texts track_obj) as [[[tn an] al]|]; [|discriminate].
  destruct (falsy tn || falsy an); [discriminate|].
  intros [= <-]. eauto.
Qed.

(** The line [json.dumps] gives for a Listen Record, when the timestamp
    is within the digit limit. *)
Lemma dumps_listen_record (listened_at : Z) (track_name artist_name : string)
    (album_name : option string) :
  dumps (listen_record listened_at track_name artist_name album_name)
  = match int_str listened_at with
    | Ret _ => Ret (listen_line listened_at track_name artist_name album_name)
    | Raise e => Raise e
    end.
Proof.
  unfold listen_line, listen_record, release_entry.
  cbn [dumps mapM fst snd]. unfold int_str.
  destruct (over_digit_limit listened_at); [reflexivity|].
  destruct album_name as [[|c r]|];
    cbn [dumps mapM join fst snd]; unfold encode_basestring;
    rewrite !append_assoc; reflexivity.
Qed.

Lemma listen_line_one_line (listened_at : Z) (track_name artist_name : string)
    (album_name : option string) :
  count_char newline
    (listen_line listened_at track_name artist_name album_name) = 0%nat.
Proof.
  unfold listen_line.
  destruct album_name as [[|c r]|];
    rewrite ?count_char_app, ?escape_no_newline, ?str_of_Z_no_newline;
    reflexivity.
Qed.

Lemma listen_record_one_line (listened_at : Z) (track_name artist_name : string)
    (album_name : option string) (line : string) :
  dumps (listen_record listened_at track_name artist_name album_name)
  = Ret line ->
  count_char newline line = 0%nat.
Proof.
  rewrite dumps_listen_record. destruct (int_str listened_at); [|discriminate].
  intros [= <-]. apply listen_line_one_line.
Qed.

Lemma listens_of_lines (tracks : list dict) (records : list value)
    (lns : list string) :
  listens_of tracks = Ret records ->
  Forall2 line_of records lns ->
  Forall (fun l => count_char newline l = 0%nat) lns.
Proof.
  revert records lns. induction tracks as [|t tracks IH]; simpl;
    intros records lns.
  - intros [= <-] H. inversion H. constructor.
  - destruct (track_to_listen t) as [o|e] eqn:Ht; [|discriminate].
    destruct (listens_of tracks) as [ls|e]; [|discriminate].
    intros [= <-] H. destruct o as [l|]; [|now apply (IH ls)].
    inversion H as [|r ln rs lns' [Hd _] Hrest]; subst.
    constructor; [|now apply (IH ls)].
    destruct (track_to_listen_some _ _ Ht) as (n & tn & an & al & ->).
    now apply listen_record_one_line in Hd.
Qed.

Lemma listens_of_run (tracks : list dict) (records : list value)
    (lns : list string) (written : nat) :
  listens_of tracks = Ret records ->
  Forall2 line_of records lns ->
  outcome tracks written = Ret (written + List.length records)%nat
  /\ emitted tracks = jsonl lns.
Proof.
  revert records lns written.
  induction tracks as [|t tracks IH]; simpl; intros records lns written.
  - intros [= <-] H. inversion H. simpl. split; [f_equal; lia | reflexivity].
  - destruct (track_to_listen t) as [o|e]; [|discriminate].
    destruct (listens_of tracks) as [ls|e]; [|discriminate].
    intros [= <-] H. destruct o as [l|].
    + inversion H as [|r ln rs lns' [Hd Hs] Hrest]; subst.
      rewrite Hd, has_surrogate_line, Hs.
      destruct (IH ls lns' (S written) eq_refl Hrest) as [-> ->]. simpl.
      split; [f_equal; lia | reflexivity].
    + exact (IH ls lns written eq_refl H).
Qed.

Lemma jsonl_lines (lns : list string) :
  Forall (fun l => count_char newline l = 0%nat) lns ->
  lines (jsonl lns) = (lns, EmptyString)
  /\ count_char newline (jsonl lns) = List.length lns.
Proof.
  induction 1 as [|l lns Hl _ [IH1 IH2]];
    cbn [jsonl List.length]; [split; reflexivity|].
  rewrite lines_line by exact Hl. rewrite IH1.
  rewrite !count_char_app, Hl, IH2. split; reflexivity.
Qed.

Lemma fs_set_same (p data : string) (f : string -> option string) :
  fs_set p data f p = Some data.
Proof. unfold fs_set. now rewrite String.eqb_refl. Qed.

Lemma fs_set_other (p p' data : string) (f : string -> option string) :
  p' <> p -> fs_set p data f p' = f p'.
Proof.
  intros H. unfold fs_set. apply String.eqb_neq in H. now rewrite H.
Qed.

(** One turn of the loop. *)
Lemma write_tracks_cons (output_path : string) (t : dict)
    (rest : list dict) (written : nat) (w : world) :
  write_tracks output_path (t :: rest) written w
  = match track_to_listen t with
    | Raise e => (Raise e, w)
    | Ret None => write_tracks output_path rest written w
    | Ret (Some l) =>
        match dumps l with
        | Raise e => (Raise e, w)
        | Ret line =>
            if has_surrogate (line ++ nl) then (Raise UnicodeEncodeError, w)
            else
              write_tracks output_path rest (S written)
                (World
                   (fs_set output_path
                      (match fs w output_path with
                       | Some data => data
                       | None => EmptyString
                       end ++ line ++ nl) (fs w))
                   (stdout w))
        end
    end.
Proof.
  cbn [write_tracks]. unfold bind, lift, file_write.
  destruct (track_to_listen t) as [[l|]|e]; try reflexivity.
  destruct (dumps l) as [line|e]; try reflexivity.
  destruct (has_surrogate (line ++ nl)); reflexivity.
Qed.

(** The loop, whether it ends or raises: what it returns, what the output
    file then holds, and that it touches nothing else. *)
Lemma write_tracks_run (tracks : list dict) (output_path : string)
    (written : nat) (w : world) (old : string) :
  fs w output_path = Some old ->
  fst (write_tracks output_path tracks written w) = outcome tracks written
  /\ fs (snd (write_tracks output_path tracks written w)) output_path
     = Some (old ++ emitted tracks)
  /\ (forall p, p <> output_path ->
        fs (snd (write_tracks output_path tracks written w)) p = fs w p)
  /\ stdout (snd (write_tracks output_path tracks written w)) = stdout w.
Proof.
  revert written w old.
  induction tracks as [|t tracks IH]; intros written w old Hold.
  - simpl. rewrite append_nil_r. auto.
  - rewrite write_tracks_cons. cbn [outcome emitted].
    destruct (track_to_listen t) as [[l|]|e].
    + destruct (dumps l) as [line|e].
      * destruct (has_surrogate (line ++ nl)).
        -- simpl. rewrite append_nil_r. auto.
        -- rewrite Hold. set (w1 := World _ _).
           destruct (IH (S written) w1 (old ++ line ++ nl))
             as (H1 & H2 & H3 & H4).
           { apply fs_set_same. }
           rewrite H1, H2, H4, append_assoc, append_assoc.
           repeat split; try reflexivity.
           intros p Hp. rewrite (H3 p Hp). subst w1. simpl.
           now apply fs_set_other.
      * simpl. rewrite append_nil_r. auto.
    + now apply IH.
    + simpl. rewrite append_nil_r. auto.
Qed.

Lemma write_listens_jsonl_eq (input_path output_path data : string)
    (raw : value) (w : world) :
  fs w input_path = Some data ->
  json_load data = Ret raw ->
  write_listens_jsonl input_path output_path w
  = write_tracks output_path (flatten_tracks raw) 0
      (World (fs_set output_path EmptyString (fs w)) (stdout w)).
Proof.
  intros Hin Hload.
  unfold write_listens_jsonl, bind, file_read, lift, file_create.
  now rewrite Hin, Hload.
Qed.

Lemma write_listens_jsonl_run (input_path output_path data : string)
    (raw : value) (w : world) :
  fs w input_path = Some data ->
  json_load data = Ret raw ->
  let run := write_listens_jsonl input_path output_path w in
  fst run = outcome (flatten_tracks raw) 0
  /\ fs (snd run) output_path = Some (emitted (flatten_tracks raw))
  /\ (forall p, p <> output_path -> fs (snd run) p = fs w p)
  /\ stdout (snd run) = stdout w.
Proof.
  intros Hin Hload run. subst run.
  rewrite (write_listens_jsonl_eq _ _ _ _ _ Hin Hload).
  set (w1 := World _ _).
  destruct (write_tracks_run (flatten_tracks raw) output_path 0 w1 EmptyString)
    as (H1 & H2 & H3 & H4).
  { apply fs_set_same. }
  split; [exact H1|]. split; [exact H2|]. split; [|exact H4].
  intros p Hp. rewrite (H3 p Hp). subst w1. simpl. now apply fs_set_other.
Qed.

(** C6, amended: for the records accepted from the input, when
    [json.dumps] gives a line for each and no line holds a lone surrogate,
    the serializer writes the line of each, in order, each closed by one
    newline and holding no other newline, so that the lines of the file are
    exactly the JSON texts of the records; characters outside ASCII are
    written as they are; and the count returned is the number of lines
    written, the number of records whose conversion succeeded. *)
Theorem serializer_one_record_per_line (input_path output_path data : string)
    (raw : value) (records : list value) (lns : list string) (w : world) :
  fs w input_path = Some data ->
  json_load data = Ret raw ->
  listens_of (flatten_tracks raw) = Ret records ->
  Forall2 line_of records lns ->
  let run := write_listens_jsonl input_path output_path w in
  fst run = Ret (List.length records)
  /\ fs (snd run) output_path = Some (jsonl lns)
  /\ lines (jsonl lns) = (lns, EmptyString)
  /\ count_char newline (jsonl lns) = List.length records
  /\ (forall c, is_ascii c = false -> escape_char c = String c EmptyString)
  /\ (forall s, (forall c, count_char c s <> 0%nat -> is_ascii c = false) ->
                dumps (VStr s) = Ret (q ++ s ++ q)).
Proof.
  intros Hin Hload Hrec Hlines run.
  destruct (write_listens_jsonl_run input_path output_path data raw w Hin Hload)
    as (H1 & H2 & _).
  fold run in H1, H2.
  destruct (listens_of_run _ records lns 0 Hrec Hlines) as [Ho He].
  destruct (jsonl_lines lns (listens_of_lines _ _ _ Hrec Hlines)) as [Hl Hc].
  rewrite H1, H2, Ho, He, Hc, (Forall2_length Hlines). simpl.
  repeat split; auto.
  - apply escape_char_non_ascii.
  - intros s Hs. unfold encode_basestring. now rewrite escape_non_ascii.
Qed.

(** ** The pipeline *)

Lemma write_listens_jsonl_missing (input_path output_path : string)
    (w : world) :
  fs w input_path = None ->
  write_listens_jsonl input_path output_path w = (Raise FileNotFoundError, w).
Proof.
  intros Hin. unfold write_listens_jsonl, bind, file_read. now rewrite Hin.
Qed.

Lemma write_listens_jsonl_unparsed (input_path output_path data : string)
    (e : exn) (w : world) :
  fs w input_path = Some data ->
  json_load data = Raise e ->
  write_listens_jsonl input_path output_path w = (Raise e, w).
Proof.
  intros Hin Hload. unfold write_listens_jsonl, bind, file_read, lift.
  now rewrite Hin, Hload.
Qed.

Lemma main_raises (w w1 : world) (e : exn) :
  write_listens_jsonl INPUT_FILE OUTPUT_JSONL w = (Raise e, w1) ->
  main w = (Raise e, w1).
Proof. intros H. unfold main, bind. now rewrite H. Qed.

Lemma main_returns (w w1 : world) (written : nat) (jsonl_text : string) :
  write_listens_jsonl INPUT_FILE OUTPUT_JSONL w = (Ret written, w1) ->
  fs w1 OUTPUT_JSONL = Some jsonl_text ->
  exists w2,
    main w = (Ret tt, w2)
    /\ fs w2 OUTPUT_JSONL = Some jsonl_text
    /\ fs w2 OUTPUT_ZIP = Some (zip_bytes [("listens.jsonl", jsonl_text)])
    /\ fs w2 INPUT_FILE = fs w1 INPUT_FILE
    /\ stdout w2
       = stdout w1 ++ "Listens written:" ++ " "
           ++ str_of_Z (Z.of_nat written) ++ nl
           ++ "Created:" ++ " " ++ OUTPUT_ZIP ++ nl.
Proof.
  intros H Hj. unfold main, bind. rewrite H.
  unfold print, make_import_zip, bind, file_create, file_read, file_put.
  cbn [fs stdout]. unfold fs_set at 1. cbn [String.eqb OUTPUT_JSONL OUTPUT_ZIP Ascii.eqb Bool.eqb].
  rewrite Hj. eexists. split; [reflexivity|].
  cbn [fs stdout]. unfold fs_set.
  repeat split; try (simpl; assumption); try reflexivity.
  now rewrite !append_assoc.
Qed.

Lemma main_run (w : world) :
  fst (main w) = main_outcome (fs w INPUT_FILE)
  /\ fs (snd (main w)) OUTPUT_JSONL
     = jsonl_after (fs w INPUT_FILE) (fs w OUTPUT_JSONL)
  /\ fs (snd (main w)) INPUT_FILE = fs w INPUT_FILE
  /\ (fst (main w) = Ret tt ->
      exists jsonl_text,
        fs (snd (main w)) OUTPUT_JSONL = Some jsonl_text
        /\ fs (snd (main w)) OUTPUT_ZIP
           = Some (zip_bytes [("listens.jsonl", jsonl_text)])).
Proof.
  unfold main_outcome, jsonl_after.
  destruct (fs w INPUT_FILE) as [data|] eqn:Hin.
  2:{ rewrite (main_raises w w FileNotFoundError)
        by now apply write_listens_jsonl_missing.
      simpl. repeat split; auto. discriminate. }
  destruct (json_load data) as [raw|e] eqn:Hload.
  2:{ rewrite (main_raises w w e)
        by now apply write_listens_jsonl_unparsed with (data := data).
      simpl. repeat split; auto. discriminate. }
  destruct (write_listens_jsonl_run INPUT_FILE OUTPUT_JSONL data raw w Hin Hload)
    as (H1 & H2 & H3 & H4).
  destruct (write_listens_jsonl INPUT_FILE OUTPUT_JSONL w) as [r w1] eqn:Hw.
  simpl in H1, H2, H3, H4. rewrite <- H1.
  assert (Hi : fs w1 INPUT_FILE = Some data)
    by (rewrite H3; [exact Hin | discriminate]).
  destruct r as [written|e].
  - destruct (main_returns w w1 written _ Hw H2) as (w2 & -> & J & Z & I & _).
    simpl. rewrite J, I. repeat split; auto.
    intros _. exists (emitted (flatten_tracks raw)). auto.
  - rewrite (main_raises w w1 e Hw). simpl.
    repeat split; auto. discriminate.
Qed.

(** C4: on the export with Song A (album text [Album A], [date.uts] the
    text [1000]) and Song B (marked now playing), the pipeline accepts
    exactly one Listen Record, [listened_at] 1000 with track Song A, artist
    Artist A and release Album A; the JSONL file holds its line and nothing
    else, the count returned is 1 and the count reported is 1. *)
Theorem round_trip_example (w : world) (data : string) :
  fs w INPUT_FILE = Some data ->
  json_load data = Ret export_example ->
  flatten_tracks export_example = [song_a; song_b]
  /\ track_to_listen song_a = Ret (Some listen_a)
  /\ track_to_listen song_b = Ret None
  /\ listens_of (flatten_tracks export_example) = Ret [listen_a]
  /\ dumps listen_a = Ret listen_a_line
  /\ fst (write_listens_jsonl INPUT_FILE OUTPUT_JSONL w) = Ret 1%nat
  /\ fs (snd (write_listens_jsonl INPUT_FILE OUTPUT_JSONL w)) OUTPUT_JSONL
     = Some (listen_a_line ++ nl)
  /\ fst (main w) = Ret tt
  /\ fs (snd (main w)) OUTPUT_JSONL = Some (listen_a_line ++ nl)
  /\ stdout (snd (main w))
     = stdout w ++ "Listens written: 1" ++ nl
         ++ "Created: listenbrainz_import.zip" ++ nl.
Proof.
  intros Hin Hload.
  destruct (write_listens_jsonl_run INPUT_FILE OUTPUT_JSONL data _ w Hin Hload)
    as (H1 & H2 & _ & H4).
  destruct (write_listens_jsonl INPUT_FILE OUTPUT_JSONL w) as [r w1] eqn:Hw.
  simpl fst in *. simpl snd in *.
  change (outcome (flatten_tracks export_example) 0) with (@Ret nat 1%nat) in H1.
  change (emitted (flatten_tracks export_example))
    with (listen_a_line ++ nl) in H2.
  subst r.
  destruct (main_returns w w1 1 _ Hw H2) as (w2 & -> & J & _ & _ & O).
  simpl fst. simpl snd. rewrite O, H4.
  repeat split; try reflexivity; assumption.
Qed.


(** C8: on an export with a record whose [date.uts] is an infinite number,
    as [json.load] gives for [1e999], the converter raises [OverflowError]
    instead of yielding SKIP, and the run of the pipeline ends with that
    exception. *)
Theorem infinite_uts_raises (w : world) :
  flatten_tracks export_infinite = [song_a; song_infinite]
  /\ track_to_listen song_infinite = Raise OverflowError
  /\ listens_of (flatten_tracks export_infinite) = Raise OverflowError
  /\ fst (write_tracks OUTPUT_JSONL (flatten_tracks export_infinite) 0 w)
     = Raise OverflowError.
Proof. repeat split; reflexivity. Qed.

(** The normalizer gives the empty sequence for a payload that is neither
    a sequence nor a mapping, and only mappings in every case. *)
Lemma flatten_tracks_scalar (payload : value) :
  match payload with
  | VList _ | VDict _ => True
  | _ => flatten_tracks payload = []
  end.
Proof. destruct payload; simpl; auto. Qed.

Lemma keep_dicts_in (items : list value) (d : dict) :
  In d (keep_dicts items) <-> In (VDict d) items.
Proof.
  induction items as [|x items IH]; simpl; [tauto|].
  destruct x; simpl; rewrite IH; split; intros H;
    try (now right); try (destruct H as [H|H]; [discriminate | exact H]).
  - destruct H as [->|H]; [now left | now right].
  - destruct H as [[= ->]|H]; [now left | now right].
Qed.

(** Two runs, from worlds with the same readable input, write the same
    JSONL file and end the same way. *)
Lemma main_same_input (w w' : world) (data : string) (raw : value) :
  fs w INPUT_FILE = Some data ->
  fs w' INPUT_FILE = Some data ->
  json_load data = Ret raw ->
  fs (snd (main w)) OUTPUT_JSONL = fs (snd (main w')) OUTPUT_JSONL
  /\ fst (main w) = fst (main w').
Proof.
  intros H H' Hload.
  destruct (main_run w) as (H1 & H2 & _). destruct (main_run w') as (H1' & H2' & _).
  rewrite H1, H2, H1', H2', H, H'. unfold jsonl_after. now rewrite Hload.
Qed.

(** C9: a second run of the pipeline on the input the first run has read
    ends as the first did and leaves, byte for byte, the same JSONL file:
    what is written depends on the input file alone. *)
Theorem pipeline_rerun_same_jsonl (w : world) :
  fs (snd (main (snd (main w)))) OUTPUT_JSONL = fs (snd (main w)) OUTPUT_JSONL
  /\ fst (main (snd (main w))) = fst (main w)
  /\ fs (snd (main w)) INPUT_FILE = fs w INPUT_FILE.
Proof.
  destruct (main_run w) as (H1 & H2 & H3 & _).
  destruct (main_run (snd (main w))) as (K1 & K2 & _ & _).
  rewrite K1, K2, H1, H2, H3. repeat split.
  unfold jsonl_after. destruct (fs w INPUT_FILE) as [data|]; [|reflexivity].
  destruct (json_load data); reflexivity.
Qed.

(** ** More on the normalizer *)

Lemma keep_dicts_app (xs ys : list value) :
  keep_dicts (xs ++ ys) = (keep_dicts xs ++ keep_dicts ys)%list.
Proof.
  induction xs as [|x xs IH]; simpl; [reflexivity|].
  destruct x; simpl; now rewrite IH.
Qed.

Lemma keep_dicts_all (ds : list dict) : keep_dicts (map VDict ds) = ds.
Proof. induction ds as [|d ds IH]; simpl; [reflexivity | now rewrite IH]. Qed.

(** X1: a payload that is a sequence whose elements are mappings and
    sequences of mappings, in any order, is flattened by one level: each
    mapping gives itself and each sequence gives its mappings, in the order
    of the payload. *)
Theorem flatten_tracks_one_level (items : list (dict + list dict)) :
  flatten_tracks (VList (map item_value items)) = flat_map item_records items.
Proof.
  unfold flatten_tracks.
  induction items as [|[d|g] items IH]; [reflexivity | |].
  - simpl. simpl in IH. now rewrite IH.
  - simpl. simpl in IH. now rewrite keep_dicts_app, keep_dicts_all, IH.
Qed.

(** X2: normalizing a sequence payload distributes over concatenation: the
    records of [xs ++ ys] are those of [xs] followed by those of [ys]. *)
Theorem flatten_tracks_app (xs ys : list value) :
  flatten_tracks (VList (xs ++ ys))
  = (flatten_tracks (VList xs) ++ flatten_tracks (VList ys))%list.
Proof.
  unfold flatten_tracks. now rewrite flat_map_app, keep_dicts_app.
Qed.

(** X3: the records of a sequence payload are exactly the mappings that
    are elements of it or elements of a sequence that is an element of it:
    deeper nesting is not entered and everything else is dropped. *)
Theorem flatten_tracks_list_members (xs : list value) (d : dict) :
  In d (flatten_tracks (VList xs)) <->
  In (VDict d) xs \/ exists l, In (VList l) xs /\ In (VDict d) l.
Proof.
  unfold flatten_tracks. rewrite keep_dicts_in, in_flat_map. split.
  - intros (x & Hx & Hd). destruct x; simpl in Hd;
      try (destruct Hd as [Hd|[]]; try discriminate).
    + right. eauto.
    + left. now rewrite <- Hd.
  - intros [H | (l & Hl & Hd)].
    + exists (VDict d). split; [exact H | now left].
    + exists (VList l). split; [exact Hl | exact Hd].
Qed.

(** X4: when the payload has a mapping under [recenttracks], only that
    mapping's [track] counts: the payload is normalized as the mapping
    holding just that [track] value, whatever else the payload holds. *)
Theorem flatten_tracks_recenttracks_first (p recenttracks : dict) :
  py_get p "recenttracks" = VDict recenttracks ->
  flatten_tracks (VDict p)
  = flatten_tracks (VDict [("track", py_get recenttracks "track")]).
Proof.
  intros H. unfold flatten_tracks. rewrite H. reflexivity.
Qed.

(** X5: a mapping payload with no mapping under [recenttracks] and no
    [track] key is itself the single record. *)
Theorem flatten_tracks_bare_record (p : dict) :
  (forall rt, py_get p "recenttracks" <> VDict rt) ->
  lookup "track" p = None ->
  flatten_tracks (VDict p) = [p].
Proof.
  intros Hrt Htrack. unfold flatten_tracks, py_in. rewrite Htrack.
  destruct (py_get p "recenttracks") as [| | | | | |rcd] eqn:E;
    try reflexivity.
  now elim (Hrt rcd).
Qed.

(** X6: a [recenttracks] mapping with no [track], or with [None] under it,
    gives no record at all, even when the payload has tracks of its own
    under a top-level [track] key. *)
Theorem flatten_tracks_recenttracks_empty (p recenttracks : dict) :
  py_get p "recenttracks" = VDict recenttracks ->
  py_get recenttracks "track" = VNone ->
  flatten_tracks (VDict p) = [].
Proof.
  intros H Ht. unfold flatten_tracks. rewrite H, Ht. reflexivity.
Qed.

(** X7: a [track] key holding [None] gives no record, and a [track] key
    holding anything that is neither a sequence nor a mapping (a number, a
    text, a boolean) gives none either: the payload is then not taken as a
    record itself. *)
Theorem flatten_tracks_track_not_records (p : dict) (v : value) :
  (forall rt, py_get p "recenttracks" <> VDict rt) ->
  lookup "track" p = Some v ->
  (forall l, v <> VList l) ->
  (forall d, v <> VDict d) ->
  flatten_tracks (VDict p) = [].
Proof.
  intros Hrt Htrack Hl Hd.
  assert (Hg : py_get p "track" = v) by (unfold py_get; now rewrite Htrack).
  unfold flatten_tracks, py_in. rewrite Htrack, Hg.
  destruct (py_get p "recenttracks") as [| | | | | |rcd] eqn:E;
    try (destruct v as [| | | | |vl|vd]; try reflexivity;
         [now elim (Hl vl) | now elim (Hd vd)]).
  now elim (Hrt rcd).
Qed.

(** ** More on text extraction *)

Lemma string_of_uint_not_empty (d : uint) :
  NilZero.string_of_uint d <> EmptyString.
Proof. destruct d; discriminate. Qed.

Lemma str_of_Z_not_empty (n : Z) : str_of_Z n <> EmptyString.
Proof.
  unfold str_of_Z, NilZero.string_of_int.
  destruct (Z.to_int n); [apply string_of_uint_not_empty | discriminate].
Qed.

(** X8: [get_text] gives [None] exactly for [None] and for a mapping with
    no [#text] key or with [None] under it. *)
Theorem get_text_none (v : value) :
  get_text v = Ret None <->
  v = VNone \/ exists d, v = VDict d /\ py_get d "#text" = VNone.
Proof.
  split.
  - destruct v as [|b|n|x|s|l|d]; cbn [get_text]; try discriminate;
      try (now left);
      try (destruct (py_str _); discriminate).
    destruct (py_get d "#text") eqn:E; try discriminate;
      try (destruct (py_str _); discriminate).
    intros _. right. now exists d.
  - intros [-> | (d & -> & H)]; simpl; [reflexivity | now rewrite H].
Qed.

(** X9: a value that is not a mapping gives the same text whether it
    stands alone or under [#text] in a mapping; a mapping under [#text] is
    not opened again, its [repr] is the text. *)
Theorem get_text_wrapped (v : value) (d inner : dict) :
  (forall m, v <> VDict m) ->
  get_text (VDict (("#text", v) :: d)) = get_text v
  /\ get_text (VDict (("#text", VDict inner) :: d))
     = match py_repr (VDict inner) with
       | Ret s => Ret (Some s)
       | Raise e => Raise e
       end.
Proof.
  intros Hv. split; [|reflexivity].
  destruct v as [| | | | | |m]; try reflexivity. now elim (Hv m).
Qed.

(** X10: a whole number within the digit limit is taken as its decimal
    text, which is never empty, alone or under [#text]; on a whole number
    beyond the limit [get_text] raises [ValueError]. *)
Theorem get_text_int (n : Z) :
  get_text (VInt n)
  = (if over_digit_limit n then Raise ValueError
     else Ret (Some (str_of_Z n)))
  /\ get_text (VDict [("#text", VInt n)]) = get_text (VInt n)
  /\ (forall o, get_text (VInt n) = Ret o -> falsy o = false).
Proof.
  assert (E : get_text (VInt n)
              = (if over_digit_limit n then Raise ValueError
                 else Ret (Some (str_of_Z n))))
    by (cbn [get_text py_str py_repr]; unfold int_str;
        destruct (over_digit_limit n); reflexivity).
  split; [exact E|]. split; [reflexivity|].
  intros o. rewrite E. destruct (over_digit_limit n); [discriminate|].
  intros [= <-]. apply falsy_some, str_of_Z_not_empty.
Qed.

(** ** More on the converter *)

(** X11: the converter reads the five keys [@attr], [date], [name],
    [artist] and [album] and nothing else: two records that agree on these
    convert alike, whatever other keys they hold and in whatever order. *)
Theorem track_to_listen_five_keys (t t' : dict) :
  py_get t "@attr" = py_get t' "@attr" ->
  py_get t "date" = py_get t' "date" ->
  py_get t "name" = py_get t' "name" ->
  py_get t "artist" = py_get t' "artist" ->
  py_get t "album" = py_get t' "album" ->
  track_to_listen t = track_to_listen t'.
Proof.
  intros Hattr Hdate Hname Hartist Halbum.
  rewrite !track_to_listen_eq. unfold now_playing, texts.
  now rewrite Hattr, Hdate, Hname, Hartist, Halbum.
Qed.

(** The three texts are extracted unless one of the fields holds, where
    [get_text] looks, an [int] beyond the digit limit; the exception is
    then [ValueError]. *)
Lemma texts_raises (t : dict) (e : exn) :
  texts t = Raise e <-> e = ValueError /\ fields_loadable t = false.
Proof.
  unfold texts, fields_loadable.
  pose proof (get_text_loadable (py_get t "name")) as Hn.
  pose proof (get_text_loadable (py_get t "artist")) as Ha.
  pose proof (get_text_loadable (py_get t "album")) as Hl.
  destruct (loadable (text_source (py_get t "name")));
    [destruct Hn as [tn ->] | rewrite Hn].
  2:{ simpl. split; [now intros [= <-] | now intros [-> _]]. }
  destruct (loadable (text_source (py_get t "artist")));
    [destruct Ha as [an ->] | rewrite Ha].
  2:{ simpl. split; [now intros [= <-] | now intros [-> _]]. }
  destruct (loadable (text_source (py_get t "album")));
    [destruct Hl as [al ->] | rewrite Hl].
  2:{ simpl. split; [now intros [= <-] | now intros [-> _]]. }
  simpl. split; [discriminate | now intros [_ H]].
Qed.

(** X12: the converter raises in exactly two situations, both on a record
    not marked now playing that has a [date] mapping with a [uts] key:
    with [OverflowError] when [date.uts] is an infinite number, and with
    [ValueError] when [date.uts] is read as an integer and the name, the
    artist or the album holds a whole number beyond the digit limit where
    the text is taken from. *)
Theorem track_to_listen_raises (track_obj : dict) (e : exn) :
  track_to_listen track_obj = Raise e <->
  now_playing track_obj = false /\
  exists date uts,
    py_get track_obj "date" = VDict date
    /\ lookup "uts" date = Some uts
    /\ ((e = OverflowError /\ exists s, uts = VFloat (S754_infinity s))
        \/ (e = ValueError /\ (exists n, py_int uts = Ret n)
            /\ fields_loadable track_obj = false)).
Proof.
  rewrite track_to_listen_eq. split.
  - destruct (now_playing track_obj); [discriminate|].
    destruct (py_get track_obj "date") as [| | | | |?|date]; try discriminate.
    destruct (lookup "uts" date) as [uts|] eqn:Huts; [|discriminate].
    destruct (py_int uts) as [n|e'] eqn:Hint.
    + destruct (texts track_obj) as [[[tn an] al]|e'] eqn:Ht.
      * destruct (falsy tn || falsy an); discriminate.
      * intros [= <-]. apply texts_raises in Ht. destruct Ht as [-> Hf].
        split; [reflexivity|]. exists date, uts.
        split; [reflexivity|]. split; [exact Huts|].
        right. split; [reflexivity|]. split; [now exists n | exact Hf].
    + pose proof (py_int_raises _ _ Hint) as Hr.
      destruct e'; try discriminate; intros [= <-]; try contradiction.
      destruct Hr as [s ->]. split; [reflexivity|].
      exists date, (VFloat (S754_infinity s)).
      split; [reflexivity|]. split; [exact Huts|].
      left. split; [reflexivity | now exists s].
  - intros (-> & date & uts & -> & -> & [(-> & s & ->) | (-> & (n & ->) & Hf)]);
      [reflexivity|].
    rewrite (proj2 (texts_raises track_obj ValueError) (conj eq_refl Hf)).
    reflexivity.
Qed.

(** X13: the converter yields SKIP exactly when the record is marked now
    playing, or has no [date] mapping with a [uts] key, or [int] raises
    [TypeError] or [ValueError] on [date.uts], or [date.uts] is read, the
    three texts are extracted, and the name or the artist text is [None]
    or empty. *)
Theorem track_to_listen_skips (t : dict) :
  track_to_listen t = Ret None <->
  now_playing t = true
  \/ (forall date, py_get t "date" = VDict date -> lookup "uts" date = None)
  \/ (exists date uts e,
        py_get t "date" = VDict date /\ lookup "uts" date = Some uts
        /\ py_int uts = Raise e /\ (e = TypeError \/ e = ValueError))
  \/ (exists date uts n track_name artist_name album_name,
        py_get t "date" = VDict date /\ lookup "uts" date = Some uts
        /\ py_int uts = Ret n
        /\ texts t = Ret (track_name, artist_name, album_name)
        /\ (falsy track_name = true \/ falsy artist_name = true)).
Proof.
  split.
  - rewrite track_to_listen_eq.
    destruct (now_playing t); [now left|]. intros H. right.
    destruct (py_get t "date") as [| | | | | |date] eqn:Hdate;
      try solve [left; intros date0 [=]].
    destruct (lookup "uts" date) as [uts|] eqn:Huts;
      [|left; now intros date0 [= <-]].
    right. destruct (py_int uts) as [n|e] eqn:Hint.
    + right. destruct (texts t) as [[[tn an] al]|e] eqn:Ht; [|discriminate].
      exists date, uts, n, tn, an, al. repeat split; auto.
      destruct (falsy tn); [now left|].
      destruct (falsy an); [now right|].
      discriminate.
    + left. exists date, uts, e. repeat split; auto.
      destruct e; try discriminate; auto.
  - intros [H | [H | [(date & uts & e & Hd & Hu & Hi & He)
                     | (date & uts & n & tn & an & al & Hd & Hu & Hi & Ht & Hf)]]].
    + rewrite track_to_listen_eq, H. reflexivity.
    + now apply skip_without_date.
    + now apply skip_uts_not_integer with (date := date) (uts := uts) (e := e).
    + now apply skip_without_names
        with (date := date) (uts := uts) (n := n)
             (track_name := tn) (artist_name := an) (album_name := al).
Qed.

Lemma uint_value_pos (d : uint) (a : positive) :
  uint_value d (Z.pos a) = Z.pos (Pos.of_uint_acc d a).
Proof.
  revert a. induction d; intros a; cbn [uint_value Pos.of_uint_acc];
    try reflexivity; rewrite <- IHd; f_equal; lia.
Qed.

Lemma uint_value_zero (d : uint) : uint_value d 0 = Z.of_N (Pos.of_uint d).
Proof.
  induction d; simpl; try reflexivity; try exact IHd;
    apply (uint_value_pos d).
Qed.

Lemma scan_digits_step (c : ascii) (v : Z) (r : string) (prev : bool)
    (acc : Z) (k : nat) :
  is_underscore c = false ->
  digit_value c = Some v ->
  scan_digits (String c r) prev acc k
  = scan_digits r false (10 * acc + v) (S k).
Proof. intros Hu Hd. cbn [scan_digits]. now rewrite Hu, Hd. Qed.

Lemma scan_digits_uint (d : uint) (acc : Z) (k : nat) :
  scan_digits (NilEmpty.string_of_uint d) false acc k
  = Some (uint_value d acc, (k + nb_digits d)%nat, EmptyString).
Proof.
  revert acc k. induction d; intros acc k;
    cbn [NilEmpty.string_of_uint uint_value nb_digits];
    [simpl; now rewrite Nat.add_0_r | ..];
    (erewrite scan_digits_step by reflexivity;
     rewrite IHd, Nat.add_succ_r; reflexivity).
Qed.

Lemma string_of_uint_length (d : uint) :
  String.length (NilEmpty.string_of_uint d) = nb_digits d.
Proof. induction d; simpl; auto. Qed.

Lemma string_of_uint_ascii (d : uint) :
  all_ascii (NilEmpty.string_of_uint d) = true.
Proof. induction d; simpl; auto. Qed.

Lemma PyLong_FromString_digits (lim : nat) (d : uint) :
  d <> Nil ->
  lim = 0%nat \/ (nb_digits d <= 640)%nat ->
  PyLong_FromString lim (NilEmpty.string_of_uint d) = Some (uint_value d 0)
  /\ PyLong_FromString lim (String "-" (NilEmpty.string_of_uint d))
     = Some (- uint_value d 0).
Proof.
  intros Hd Hlim.
  assert (Hc : ((640 <? nb_digits d) && (0 <? lim) && (lim <? nb_digits d))%nat
               = false).
  { destruct Hlim as [-> | H].
    - now rewrite andb_false_r.
    - apply Nat.ltb_ge in H. now rewrite H. }
  destruct d; [now elim Hd | ..]; clear Hd;
    cbn [NilEmpty.string_of_uint nb_digits] in *;
    (split; unfold PyLong_FromString;
     match goal with
     | |- context [skip_space (String ?c ?r)] =>
         change (skip_space (String c r)) with (String c r)
     end;
     cbv beta iota zeta;
     erewrite scan_digits_step by reflexivity;
     rewrite scan_digits_uint;
     cbn [Nat.add Nat.eqb]; rewrite Hc; reflexivity).
Qed.

Lemma int_of_str_decimal (n : Z) :
  int_max_str_digits = 0%nat \/ (String.length (str_of_Z n) <= 640)%nat ->
  int_of_str (str_of_Z n) = Some n.
Proof.
  unfold int_of_str, str_of_Z, Z.to_int, NilZero.string_of_int.
  destruct n as [|p|p]; [reflexivity | |]; intros Hlim.
  - pose proof (DecimalPos.Unsigned.to_uint_nonnil p) as Hnil.
    assert (E : NilZero.string_of_uint (Pos.to_uint p)
                = NilEmpty.string_of_uint (Pos.to_uint p))
      by (destruct (Pos.to_uint p); [now elim Hnil | reflexivity ..]).
    rewrite E in *. rewrite string_of_uint_ascii.
    rewrite string_of_uint_length in Hlim.
    rewrite (proj1 (PyLong_FromString_digits _ _ Hnil Hlim)).
    now rewrite uint_value_zero, DecimalPos.Unsigned.of_to.
  - pose proof (DecimalPos.Unsigned.to_uint_nonnil p) as Hnil.
    assert (E : NilZero.string_of_uint (Pos.to_uint p)
                = NilEmpty.string_of_uint (Pos.to_uint p))
      by (destruct (Pos.to_uint p); [now elim Hnil | reflexivity ..]).
    rewrite E in *. cbn [all_ascii]. rewrite string_of_uint_ascii.
    cbn [String.length] in Hlim. rewrite string_of_uint_length in Hlim.
    assert (Hlim' : int_max_str_digits = 0%nat
                    \/ (nb_digits (Pos.to_uint p) <= 640)%nat)
      by (destruct Hlim; [now left | right; lia]).
    change (is_ascii "-" && true) with true. cbv iota.
    rewrite (proj2 (PyLong_FromString_digits _ _ Hnil Hlim')).
    now rewrite uint_value_zero, DecimalPos.Unsigned.of_to.
Qed.

(** X14: a timestamp given as the decimal text of a whole number is read
    back as that number (text of at most 640 characters, or any length
    when the interpreter has no digit limit), so that a record converts
    alike with [date.uts] as this text and as the number itself. *)
Theorem uts_text_reads_back (n : Z) (t : dict) :
  int_max_str_digits = 0%nat \/ (String.length (str_of_Z n) <= 640)%nat ->
  py_int (VStr (str_of_Z n)) = Ret n
  /\ track_to_listen (("date", VDict [("uts", VStr (str_of_Z n))]) :: t)
     = track_to_listen (("date", VDict [("uts", VInt n)]) :: t).
Proof.
  intros Hlim.
  assert (H : py_int (VStr (str_of_Z n)) = Ret n)
    by (simpl; now rewrite int_of_str_decimal).
  split; [exact H|].
  rewrite !track_to_listen_eq. unfold now_playing, texts, py_get.
  cbn [lookup String.eqb Ascii.eqb Bool.eqb]. now rewrite H.
Qed.

(** What an emitted record is made of. *)
Lemma track_to_listen_fields (track_obj : dict) (listen : value) :
  track_to_listen track_obj = Ret (Some listen) ->
  exists (date : dict) (uts : value) (listened_at : Z)
         (track_name artist_name : string) (album_name : option string),
    py_get track_obj "date" = VDict date /\
    lookup "uts" date = Some uts /\
    py_int uts = Ret listened_at /\
    get_text (py_get track_obj "name") = Ret (Some track_name) /\
    get_text (py_get track_obj "artist") = Ret (Some artist_name) /\
    get_text (py_get track_obj "album") = Ret album_name /\
    listen = listen_record listened_at track_name artist_name album_name.
Proof.
  rewrite track_to_listen_eq.
  destruct (now_playing track_obj); [discriminate|].
  destruct (py_get track_obj "date") as [| | | | |?|date] eqn:Hdate;
    try discriminate.
  destruct (lookup "uts" date) as [uts|] eqn:Huts; [|discriminate].
  destruct (py_int uts) as [n|[]] eqn:Hint; try discriminate.
  unfold texts.
  destruct (get_text (py_get track_obj "name")) as [otn|]; [|discriminate].
  destruct (get_text (py_get track_obj "artist")) as [oan|]; [|discriminate].
  destruct (get_text (py_get track_obj "album")) as [al|]; [|discriminate].
  destruct (falsy otn) eqn:Hn; [discriminate|].
  destruct (falsy oan) eqn:Ha; [discriminate|].
  simpl. intros [= <-].
  destruct (falsy_false _ Hn) as (tn & -> & _).
  destruct (falsy_false _ Ha) as (an & -> & _).
  exists date, uts, n, tn, an, al. simpl. repeat split; auto.
Qed.

(** X15: the line that the loop writes for a record it accepts is the
    JSON object with [listened_at] first, the integer read from
    [date.uts], and [track_metadata] second, holding [track_name],
    [artist_name] and, when there is album text, [release_name], the texts
    that [get_text] gave, in this order, with [", "] and [": "] between;
    the loop puts that line and a newline after what the file held. *)
Theorem listen_line_format (t : dict) (listen : value) (line old : string)
    (output_path : string) (w : world) :
  track_to_listen t = Ret (Some listen) ->
  dumps listen = Ret line ->
  has_surrogate line = false ->
  fs w output_path = Some old ->
  exists (date : dict) (uts : value) (listened_at : Z)
         (track_name artist_name : string) (album_name : option string),
    py_get t "date" = VDict date /\
    lookup "uts" date = Some uts /\
    py_int uts = Ret listened_at /\
    get_text (py_get t "name") = Ret (Some track_name) /\
    get_text (py_get t "artist") = Ret (Some artist_name) /\
    get_text (py_get t "album") = Ret album_name /\
    line = listen_line listened_at track_name artist_name album_name /\
    fst (write_tracks output_path [t] 0 w) = Ret 1%nat /\
    fs (snd (write_tracks output_path [t] 0 w)) output_path
    = Some (old ++ listen_line listened_at track_name artist_name album_name
                ++ nl).
Proof.
  intros Ht Hd Hs Hold.
  destruct (track_to_listen_fields t listen Ht)
    as (date & uts & n & tn & an & al & H1 & H2 & H3 & H4 & H5 & H6 & ->).
  exists date, uts, n, tn, an, al.
  assert (Hl : line = listen_line n tn an al).
  { rewrite dumps_listen_record in Hd. destruct (int_str n); [|discriminate].
    now injection Hd as <-. }
  subst line.
  destruct (write_tracks_run [t] output_path 0 w old Hold) as (R1 & R2 & _).
  rewrite R1, R2. cbn [outcome emitted]. rewrite Ht, Hd, has_surrogate_line, Hs.
  rewrite append_nil_r. repeat split; auto.
Qed.

Lemma outcome_count (tracks : list dict) (written total : nat) :
  outcome tracks written = Ret total ->
  (total + skipped tracks = written + List.length tracks)%nat.
Proof.
  revert written. induction tracks as [|t tracks IH]; simpl; intros written.
  - intros [= <-]. lia.
  - destruct (track_to_listen t) as [[l|]|e]; [| |discriminate].
    + destruct (dumps l) as [line|e]; [|discriminate].
      destruct (has_surrogate (line ++ nl)); [discriminate|].
      intros H. apply IH in H. lia.
    + intros H. apply IH in H. lia.
Qed.

Lemma write_tracks_outcome (tracks : list dict) (output_path : string)
    (written : nat) (w : world) :
  fst (write_tracks output_path tracks written w) = outcome tracks written.
Proof.
  revert written w. induction tracks as [|t tracks IH]; intros written w.
  - reflexivity.
  - rewrite write_tracks_cons. cbn [outcome].
    destruct (track_to_listen t) as [[l|]|e]; [| apply IH | reflexivity].
    destruct (dumps l) as [line|e]; [|reflexivity].
    destruct (has_surrogate (line ++ nl)); [reflexivity | apply IH].
Qed.

(** X16: when no conversion raises and every accepted record has a line
    that the file can hold, the loop returns, and every record is either
    written or skipped: the count returned and the number of skipped
    records add up to the number of records, so the count never exceeds
    it. *)
Theorem written_plus_skipped (tracks : list dict) (records : list value)
    (lns : list string) (output_path : string) (w : world) :
  listens_of tracks = Ret records ->
  Forall2 line_of records lns ->
  exists written,
    fst (write_tracks output_path tracks 0 w) = Ret written
    /\ (written + skipped tracks = List.length tracks)%nat
    /\ (written <= List.length tracks)%nat.
Proof.
  intros Hrec Hlines. exists (List.length records).
  destruct (listens_of_run tracks records lns 0 Hrec Hlines) as [Ho _].
  pose proof (outcome_count tracks 0 _ Ho) as Hc.
  rewrite write_tracks_outcome, Ho. simpl in *. repeat split; lia.
Qed.

(** ** More on the pipeline *)

(** X17: when the input file is missing, or is not valid JSON, [main]
    raises (with [FileNotFoundError] when the file is missing) and leaves
    the world as it was: no output file is made or emptied and nothing is
    printed. *)
Theorem main_input_failure (w : world) :
  (fs w INPUT_FILE = None
   \/ exists data e, fs w INPUT_FILE = Some data /\ json_load data = Raise e) ->
  exists e, main w = (Raise e, w)
            /\ (fs w INPUT_FILE = None -> e = FileNotFoundError).
Proof.
  intros [Hin | (data & e & Hin & Hload)].
  - exists FileNotFoundError. split; [|reflexivity].
    apply main_raises. now apply write_listens_jsonl_missing.
  - exists e. split; [|rewrite Hin; discriminate].
    apply main_raises. now apply write_listens_jsonl_unparsed with (data := data).
Qed.

(** A run that fails at a record has written the lines of the records
    accepted before it, and ends with the exception of that record. *)
Lemma run_until_failure (pre post : list dict) (bad : dict) (e : exn)
    (records : list value) (lns : list string) (written : nat) :
  listens_of pre = Ret records ->
  Forall2 line_of records lns ->
  (forall k, outcome [bad] k = Raise e) ->
  emitted (pre ++ bad :: post) = jsonl lns
  /\ outcome (pre ++ bad :: post) written = Raise e.
Proof.
  intros Hpre Hlines Hbad. revert records lns written Hpre Hlines.
  induction pre as [|t pre IH]; simpl; intros records lns written.
  - intros [= <-] H. inversion H. specialize (Hbad written). simpl in *.
    destruct (track_to_listen bad) as [[l|]|e']; try discriminate.
    + destruct (dumps l) as [line|e']; [|now split].
      destruct (has_surrogate (line ++ nl)); [now split | discriminate].
    + now split.
  - destruct (track_to_listen t) as [o|e']; [|discriminate].
    destruct (listens_of pre) as [ls|e']; [|discriminate].
    intros [= <-] H. destruct o as [l|].
    + inversion H as [|r ln rs lns' [Hd Hs] Hrest]; subst.
      rewrite Hd, has_surrogate_line, Hs.
      destruct (IH ls lns' (S written) eq_refl Hrest) as [-> ->]. now split.
    + exact (IH ls lns written eq_refl H).
Qed.

Lemma main_failure (w : world) (data : string) (raw : value)
    (pre post : list dict) (bad : dict) (e : exn) (records : list value)
    (lns : list string) :
  fs w INPUT_FILE = Some data ->
  json_load data = Ret raw ->
  flatten_tracks raw = (pre ++ bad :: post)%list ->
  listens_of pre = Ret records ->
  Forall2 line_of records lns ->
  (forall k, outcome [bad] k = Raise e) ->
  fst (main w) = Raise e
  /\ fs (snd (main w)) OUTPUT_JSONL = Some (jsonl lns)
  /\ fs (snd (main w)) OUTPUT_ZIP = fs w OUTPUT_ZIP
  /\ stdout (snd (main w)) = stdout w.
Proof.
  intros Hin Hload Hflat Hpre Hlines Hbad.
  destruct (write_listens_jsonl_run INPUT_FILE OUTPUT_JSONL data raw w Hin Hload)
    as (H1 & H2 & H3 & H4).
  destruct (run_until_failure pre post bad e records lns 0 Hpre Hlines Hbad)
    as [He Ho].
  rewrite Hflat, Ho in H1. rewrite Hflat, He in H2.
  destruct (write_listens_jsonl INPUT_FILE OUTPUT_JSONL w) as [r w1] eqn:Hw.
  simpl in H1, H2, H3, H4. subst r.
  rewrite (main_raises w w1 e Hw). simpl.
  repeat split; auto. apply H3. discriminate.
Qed.

(** X18: when the conversion of a record raises, and the records accepted
    before it have lines that the file can hold, the run ends with that
    exception; the JSONL file holds those lines and nothing of what
    follows, the archive is neither made nor changed, and nothing is
    printed. *)
Theorem main_conversion_failure (w : world) (data : string) (raw : value)
    (pre post : list dict) (bad : dict) (e : exn) (records : list value)
    (lns : list string) :
  fs w INPUT_FILE = Some data ->
  json_load data = Ret raw ->
  flatten_tracks raw = (pre ++ bad :: post)%list ->
  listens_of pre = Ret records ->
  Forall2 line_of records lns ->
  track_to_listen bad = Raise e ->
  fst (main w) = Raise e
  /\ fs (snd (main w)) OUTPUT_JSONL = Some (jsonl lns)
  /\ fs (snd (main w)) OUTPUT_ZIP = fs w OUTPUT_ZIP
  /\ stdout (snd (main w)) = stdout w.
Proof.
  intros Hin Hload Hflat Hpre Hlines Hbad.
  apply (main_failure w data raw pre post bad e records lns); auto.
  intros k. simpl. now rewrite Hbad.
Qed.

(** X26: when a record is accepted but its line holds a lone surrogate,
    which the UTF-8 file cannot hold, the run ends with
    [UnicodeEncodeError] at that record; the JSONL file holds the lines of
    the records accepted before it, and neither that line nor any later
    one; the archive is neither made nor changed, and nothing is
    printed. *)
Theorem main_write_failure (w : world) (data : string) (raw : value)
    (pre post : list dict) (bad : dict) (listen : value) (line : string)
    (records : list value) (lns : list string) :
  fs w INPUT_FILE = Some data ->
  json_load data = Ret raw ->
  flatten_tracks raw = (pre ++ bad :: post)%list ->
  listens_of pre = Ret records ->
  Forall2 line_of records lns ->
  track_to_listen bad = Ret (Some listen) ->
  dumps listen = Ret line ->
  has_surrogate line = true ->
  fst (main w) = Raise UnicodeEncodeError
  /\ fs (snd (main w)) OUTPUT_JSONL = Some (jsonl lns)
  /\ fs (snd (main w)) OUTPUT_ZIP = fs w OUTPUT_ZIP
  /\ stdout (snd (main w)) = stdout w.
Proof.
  intros Hin Hload Hflat Hpre Hlines Hbad Hd Hs.
  apply (main_failure w data raw pre post bad UnicodeEncodeError records lns);
    auto.
  intros k. simpl. now rewrite Hbad, Hd, has_surrogate_line, Hs.
Qed.

Lemma main_returns_frame (w w1 : world) (written : nat) (jsonl_text : string) :
  write_listens_jsonl INPUT_FILE OUTPUT_JSONL w = (Ret written, w1) ->
  fs w1 OUTPUT_JSONL = Some jsonl_text ->
  forall p, p <> OUTPUT_ZIP -> fs (snd (main w)) p = fs w1 p.
Proof.
  intros H Hj p Hp. unfold main, bind. rewrite H.
  unfold print, make_import_zip, bind, file_create, file_read, file_put.
  cbn [fs stdout]. unfold fs_set at 1.
  cbn [String.eqb OUTPUT_JSONL OUTPUT_ZIP Ascii.eqb Bool.eqb].
  rewrite Hj. cbn [snd fs]. now rewrite !fs_set_other.
Qed.

(** X19: on an input that is read, parsed, converted and written to the
    JSONL file without an exception, [main] prints two lines, the count of
    the records written and the name of the archive, and changes no file
    but the JSONL file and the archive. *)
Theorem main_success_report (w : world) (data : string) (raw : value)
    (records : list value) (lns : list string) :
  fs w INPUT_FILE = Some data ->
  json_load data = Ret raw ->
  listens_of (flatten_tracks raw) = Ret records ->
  Forall2 line_of records lns ->
  stdout (snd (main w))
  = stdout w ++ "Listens written: "
      ++ str_of_Z (Z.of_nat (List.length records)) ++ nl
      ++ "Created: listenbrainz_import.zip" ++ nl
  /\ forall p, p <> OUTPUT_JSONL -> p <> OUTPUT_ZIP ->
               fs (snd (main w)) p = fs w p.
Proof.
  intros Hin Hload Hrec Hlines.
  destruct (write_listens_jsonl_run INPUT_FILE OUTPUT_JSONL data raw w Hin Hload)
    as (H1 & H2 & H3 & H4).
  destruct (listens_of_run _ _ _ 0 Hrec Hlines) as [Ho He].
  rewrite Ho in H1.
  destruct (write_listens_jsonl INPUT_FILE OUTPUT_JSONL w) as [r w1] eqn:Hw.
  simpl in H1, H2, H3, H4. subst r. split.
  - destruct (main_returns w w1 _ _ Hw H2) as (w2 & -> & _ & _ & _ & O).
    simpl. rewrite O, H4. reflexivity.
  - intros p Hj Hz.
    rewrite (main_returns_frame w w1 _ _ Hw H2 p Hz). now apply H3.
Qed.

(** ** The archive step on its own *)

(** X20: with a source file there and an archive path that differs from
    it, [make_import_zip] returns, the archive holds the single member
    [listens.jsonl] with the content of the source, whatever the source is
    called and whatever the archive path held before, and no other file
    changes. *)
Theorem make_import_zip_member (jsonl_path zip_path data : string)
    (w : world) :
  jsonl_path <> zip_path ->
  fs w jsonl_path = Some data ->
  fst (make_import_zip jsonl_path zip_path w) = Ret tt
  /\ fs (snd (make_import_zip jsonl_path zip_path w)) zip_path
     = Some (zip_bytes [("listens.jsonl", data)])
  /\ (forall p, p <> zip_path ->
        fs (snd (make_import_zip jsonl_path zip_path w)) p = fs w p)
  /\ stdout (snd (make_import_zip jsonl_path zip_path w)) = stdout w.
Proof.
  intros Hne Hdata.
  assert (E : make_import_zip jsonl_path zip_path w
              = (Ret tt,
                 World (fs_set zip_path (zip_bytes [("listens.jsonl", data)])
                          (fs_set zip_path EmptyString (fs w)))
                       (stdout w))).
  { unfold make_import_zip, bind, file_create, file_read, file_put.
    cbn [fs stdout]. rewrite fs_set_other by exact Hne. now rewrite Hdata. }
  rewrite E. cbn [fst snd fs stdout].
  split; [reflexivity|]. split; [apply fs_set_same|]. split; [|reflexivity].
  intros p Hp. now rewrite !fs_set_other.
Qed.

(** X21: with no source file, [make_import_zip] raises
    [FileNotFoundError], yet what the archive path held is gone: an
    archive with no member is left there; no other file changes. *)
Theorem make_import_zip_missing_source (jsonl_path zip_path : string)
    (w : world) :
  jsonl_path <> zip_path ->
  fs w jsonl_path = None ->
  fst (make_import_zip jsonl_path zip_path w) = Raise FileNotFoundError
  /\ fs (snd (make_import_zip jsonl_path zip_path w)) zip_path
     = Some (zip_bytes [])
  /\ (forall p, p <> zip_path ->
        fs (snd (make_import_zip jsonl_path zip_path w)) p = fs w p).
Proof.
  intros Hne Hdata.
  assert (E : make_import_zip jsonl_path zip_path w
              = (Raise FileNotFoundError,
                 World (fs_set zip_path (zip_bytes [])
                          (fs_set zip_path EmptyString (fs w)))
                       (stdout w))).
  { unfold make_import_zip, bind, file_create, file_read, file_put.
    cbn [fs stdout]. rewrite fs_set_other by exact Hne. now rewrite Hdata. }
  rewrite E. cbn [fst snd fs stdout].
  split; [reflexivity|]. split; [apply fs_set_same|].
  intros p Hp. now rewrite !fs_set_other.
Qed.

(** X22: when the payload gives no record at all (an empty sequence, a
    number, a text, [None], a [track] key holding [None]), [main] still
    returns: the JSONL file is made empty, the count printed is 0 and the
    archive holds [listens.jsonl] with nothing in it. *)
Theorem main_no_records (w : world) (data : string) (raw : value) :
  fs w INPUT_FILE = Some data ->
  json_load data = Ret raw ->
  flatten_tracks raw = [] ->
  fst (main w) = Ret tt
  /\ fs (snd (main w)) OUTPUT_JSONL = Some EmptyString
  /\ fs (snd (main w)) OUTPUT_ZIP
     = Some (zip_bytes [("listens.jsonl", EmptyString)])
  /\ stdout (snd (main w))
     = stdout w ++ "Listens written: 0" ++ nl
         ++ "Created: listenbrainz_import.zip" ++ nl.
Proof.
  intros Hin Hload Hflat.
  destruct (write_listens_jsonl_run INPUT_FILE OUTPUT_JSONL data raw w Hin Hload)
    as (H1 & H2 & _ & H4).
  rewrite Hflat in H1, H2. simpl in H1, H2.
  destruct (write_listens_jsonl INPUT_FILE OUTPUT_JSONL w) as [r w1] eqn:Hw.
  simpl in H1, H2, H4. subst r.
  destruct (main_returns w w1 _ _ Hw H2) as (w2 & -> & J & Z & _ & O).
  simpl. rewrite O, H4. repeat split; auto.
Qed.

(** X23: a record whose [artist] (or [name]) is a mapping with no [#text]
    key is never emitted: it is skipped, unless its [date.uts] is an
    infinite number, in which case the converter raises [OverflowError],
    or one of its texts holds a whole number beyond the digit limit, in
    which case it raises [ValueError]. *)
Theorem no_text_never_emitted (t d : dict) :
  py_get t "artist" = VDict d \/ py_get t "name" = VDict d ->
  lookup "#text" d = None ->
  (forall listen, track_to_listen t <> Ret (Some listen))
  /\ (track_to_listen t = Ret None
      \/ track_to_listen t = Raise OverflowError
      \/ (track_to_listen t = Raise ValueError
          /\ fields_loadable t = false)).
Proof.
  intros Hd Htext.
  assert (Hnone : get_text (VDict d) = Ret None)
    by (unfold get_text, py_get; now rewrite Htext).
  assert (H : track_to_listen t = Ret None
              \/ track_to_listen t = Raise OverflowError
              \/ (track_to_listen t = Raise ValueError
                  /\ fields_loadable t = false)).
  { rewrite track_to_listen_eq.
    destruct (now_playing t); [now left|].
    destruct (py_get t "date") as [| | | | | |date]; try (now left).
    destruct (lookup "uts" date) as [uts|]; [|now left].
    destruct (py_int uts) as [n|e] eqn:Hint.
    - destruct (texts t) as [[[tn an] al]|e] eqn:Ht.
      + left. unfold texts in Ht.
        destruct Hd as [Hd | Hd]; rewrite Hd, Hnone in Ht.
        * destruct (get_text (py_get t "name")); [|discriminate].
          destruct (get_text (py_get t "album")); [|discriminate].
          injection Ht as <- <- <-. simpl. now rewrite orb_true_r.
        * destruct (get_text (py_get t "artist")); [|discriminate].
          destruct (get_text (py_get t "album")); [|discriminate].
          injection Ht as <- <- <-. reflexivity.
      + right. right. apply texts_raises in Ht. destruct Ht as [-> Hf].
        now split.
    - pose proof (py_int_raises _ _ Hint) as Hr.
      destruct e; auto; contradiction. }
  split; [|exact H].
  intros listen E. rewrite E in H.
  destruct H as [H | [H | [H _]]]; discriminate.
Qed.

(** X24: the timestamp is not checked for range or kind beyond [int]: a
    whole number, negative or zero included, is taken as it is, and a
    boolean is taken as 1 or 0. *)
Theorem uts_number_taken_as_is (t date : dict) (uts : value)
    (track_name artist_name : string) :
  now_playing t = false ->
  py_get t "date" = VDict date ->
  lookup "uts" date = Some uts ->
  get_text (py_get t "name") = Ret (Some track_name) ->
  track_name <> EmptyString ->
  get_text (py_get t "artist") = Ret (Some artist_name) ->
  artist_name <> EmptyString ->
  match uts with
  | VInt n =>
      track_to_listen t
      = emit n track_name artist_name (get_text (py_get t "album"))
  | VBool b =>
      track_to_listen t
      = emit (if b then 1 else 0) track_name artist_name
          (get_text (py_get t "album"))
  | _ => True
  end.
Proof.
  intros Hnp Hdate Huts Hname Hne1 Hartist Hne2.
  destruct uts; try exact I;
    eapply track_to_listen_emits; eauto.
Qed.

(** X25: [_ensure_list] gives an empty sequence only for [None] and for
    the empty sequence, and applying it again to the sequence it gave
    changes nothing. *)
Theorem ensure_list_again (v : value) :
  (_ensure_list v = [] <-> v = VNone \/ v = VList [])
  /\ _ensure_list (VList (_ensure_list v)) = _ensure_list v.
Proof.
  split; [|reflexivity]. split.
  - destruct v; simpl; try discriminate; auto. intros ->. now right.
  - intros [-> | ->]; reflexivity.
Qed.

End Script.

(** ** The plain archive format is sound *)



(** ** The theorems at work *)

Lemma track_to_listen_record_song_a :
  track_to_listen (rt := plain_runtime VNone) song_a = Ret (Some listen_a)
  /\ exists (date : dict) (uts : value) (listened_at : Z)
            (track_name artist_name : string) (album_name : option string),
       now_playing song_a = false /\
       py_get song_a "date" = VDict date /\
       lookup "uts" date = Some uts /\
       py_int (rt := plain_runtime VNone) uts = Ret listened_at /\
       get_text (rt := plain_runtime VNone) (py_get song_a "name")
       = Ret (Some track_name) /\
       track_name <> EmptyString /\
       get_text (rt := plain_runtime VNone) (py_get song_a "artist")
       = Ret (Some artist_name) /\
       artist_name <> EmptyString /\
       get_text (rt := plain_runtime VNone) (py_get song_a "album")
       = Ret album_name /\
       listen_a = listen_record listened_at track_name artist_name album_name /\
       (lookup "release_name" (release_entry album_name) <> None <->
        exists album, album_name = Some album /\ album <> EmptyString).
Proof.
  split; [reflexivity|].
  apply (track_to_listen_record (rt := plain_runtime VNone) song_a listen_a).
  reflexivity.
Defined.

Lemma now_playing_text_skips_song_b :
  (py_get song_b "@attr" = VDict [("nowplaying", VStr "true")]
   /\ py_get [("nowplaying", VStr "true")] "nowplaying" = VStr "true"
   /\ track_to_listen (rt := plain_runtime VNone) song_b = Ret None)
  /\ (py_get song_flagged "@attr" = VDict [("nowplaying", VBool true)]
      /\ py_get [("nowplaying", VBool true)] "nowplaying" = VBool true
      /\ track_to_listen (rt := plain_runtime VNone) song_flagged
         = track_to_listen (rt := plain_runtime VNone)
             (dict_del "@attr" song_flagged)).
Proof.
  split; (split; [reflexivity|]); (split; [reflexivity|]).
  - apply (proj1 (now_playing_text_skips (rt := plain_runtime VNone)
                    song_b [("nowplaying", VStr "true")] eq_refl)).
    reflexivity.
  - apply (proj2 (now_playing_text_skips (rt := plain_runtime VNone)
                    song_flagged [("nowplaying", VBool true)] eq_refl) true).
    reflexivity.
Defined.

Lemma round_trip_example_run :
  fs (world_with_input "{}") INPUT_FILE = Some "{}"
  /\ json_load (Runtime := plain_runtime export_example) "{}"
     = Ret export_example
  /\ fst (main (rt := plain_runtime export_example) (world_with_input "{}"))
     = Ret tt
  /\ fs (snd (main (rt := plain_runtime export_example)
                (world_with_input "{}"))) OUTPUT_JSONL
     = Some (listen_a_line ++ nl).
Proof.
  split; [reflexivity|]. split; [reflexivity|].
  pose proof (round_trip_example (rt := plain_runtime export_example)
                (world_with_input "{}") "{}" eq_refl eq_refl) as H.
  split; apply H.
Defined.


Lemma serializer_one_record_per_line_run :
  listens_of (rt := plain_runtime export_example)
    (flatten_tracks export_example) = Ret [listen_a]
  /\ Forall2 (line_of (rt := plain_runtime export_example))
       [listen_a] [listen_a_line]
  /\ fst (write_listens_jsonl (rt := plain_runtime export_example)
            INPUT_FILE OUTPUT_JSONL (world_with_input "{}")) = Ret 1%nat
  /\ fs (snd (write_listens_jsonl (rt := plain_runtime export_example)
                INPUT_FILE OUTPUT_JSONL (world_with_input "{}")))
       OUTPUT_JSONL
     = Some (jsonl [listen_a_line]).
Proof.
  assert (L : Forall2 (line_of (rt := plain_runtime export_example))
                [listen_a] [listen_a_line])
    by (constructor; [split; reflexivity | constructor]).
  split; [reflexivity|]. split; [exact L|].
  pose proof (serializer_one_record_per_line
                (rt := plain_runtime export_example)
                INPUT_FILE OUTPUT_JSONL "{}" export_example [listen_a]
                [listen_a_line] (world_with_input "{}")
                eq_refl eq_refl eq_refl L) as H.
  split; apply H.
Defined.

(** C6 as first stated fails: both records of this export are accepted,
    the second is named by a lone surrogate (the text [json.load] gives
    for the escape \ud800); the serializer writes the line of the first,
    raises [UnicodeEncodeError] at the second, and returns no count. *)
Lemma serializer_raises_on_accepted_records :
  flatten_tracks export_surrogate = [song_a; song_surrogate]
  /\ listens_of (rt := plain_runtime export_surrogate)
       (flatten_tracks export_surrogate)
     = Ret [listen_a; listen_record 4000 lone_surrogate "Artist F" None]
  /\ fst (write_listens_jsonl (rt := plain_runtime export_surrogate)
            INPUT_FILE OUTPUT_JSONL (world_with_input "{}"))
     = Raise UnicodeEncodeError
  /\ fs (snd (write_listens_jsonl (rt := plain_runtime export_surrogate)
                INPUT_FILE OUTPUT_JSONL (world_with_input "{}")))
       OUTPUT_JSONL
     = Some (listen_a_line ++ nl).
Proof.
  repeat split; reflexivity.
Qed.

Lemma fractional_uts_truncated_song :
  now_playing song_fractional = false
  /\ has_fraction f1000_9 = true
  /\ loadable (rt := plain_runtime VNone) (py_get song_fractional "album")
     = true
  /\ track_to_listen (rt := plain_runtime VNone) song_fractional
     <> Ret None
  /\ track_to_listen (rt := plain_runtime VNone) song_fractional
     = Ret (Some (listen_record 1000 "Song D" "Artist D" None)).
Proof.
  assert (N1 : "Song D" <> EmptyString) by discriminate.
  assert (N2 : "Artist D" <> EmptyString) by discriminate.
  pose proof (fractional_uts_truncated (rt := plain_runtime VNone)
                song_fractional [("uts", VFloat f1000_9)]
                false 8804009505927987 (-43) "Song D" "Artist D"
                eq_refl eq_refl eq_refl eq_refl eq_refl N1 eq_refl N2)
    as (H1 & H2 & H3).
  split; [reflexivity|]. split; [reflexivity|]. split; [reflexivity|].
  split; [exact H1 | exact H2].
Defined.

(** C10 as first stated fails: this record has a [date.uts] with a
    fractional part and non-empty name and artist, and is skipped, for it
    is marked as now playing. *)
Lemma fractional_uts_now_playing_skipped :
  py_get song_fractional_playing "date" = VDict [("uts", VFloat f1000_9)]
  /\ has_fraction f1000_9 = true
  /\ get_text (rt := plain_runtime VNone)
       (py_get song_fractional_playing "name") = Ret (Some "Song D")
  /\ get_text (rt := plain_runtime VNone)
       (py_get song_fractional_playing "artist") = Ret (Some "Artist D")
  /\ track_to_listen (rt := plain_runtime VNone) song_fractional_playing
     = Ret None.
Proof. repeat split; reflexivity. Qed.

(** ** The further properties at work *)

Lemma flatten_tracks_recenttracks_first_run :
  py_get [("track", VList [VDict song_b]);
          ("recenttracks", VDict [("track", VDict song_a)])] "recenttracks"
  = VDict [("track", VDict song_a)]
  /\ flatten_tracks
       (VDict [("track", VList [VDict song_b]);
               ("recenttracks", VDict [("track", VDict song_a)])])
     = [song_a].
Proof.
  split; [reflexivity|].
  rewrite (flatten_tracks_recenttracks_first
             [("track", VList [VDict song_b]);
              ("recenttracks", VDict [("track", VDict song_a)])]
             [("track", VDict song_a)] eq_refl).
  reflexivity.
Defined.

Lemma flatten_tracks_bare_record_run :
  (forall r, py_get song_a "recenttracks" <> VDict r)
  /\ lookup "track" song_a = None
  /\ flatten_tracks (VDict song_a) = [song_a].
Proof.
  split; [intros r; discriminate|]. split; [reflexivity|].
  apply (flatten_tracks_bare_record song_a);
    [intros r; discriminate | reflexivity].
Defined.

Lemma flatten_tracks_recenttracks_empty_run :
  py_get [("recenttracks", VDict [("page", VInt 1)]);
          ("track", VList [VDict song_a])] "recenttracks"
  = VDict [("page", VInt 1)]
  /\ py_get [("page", VInt 1)] "track" = VNone
  /\ flatten_tracks
       (VDict [("recenttracks", VDict [("page", VInt 1)]);
               ("track", VList [VDict song_a])]) = [].
Proof.
  split; [reflexivity|]. split; [reflexivity|].
  apply (flatten_tracks_recenttracks_empty
           [("recenttracks", VDict [("page", VInt 1)]);
            ("track", VList [VDict song_a])]
           [("page", VInt 1)] eq_refl eq_refl).
Defined.

Lemma flatten_tracks_track_not_records_run :
  (forall r, py_get [("track", VInt 7); ("name", VStr "Song A")]
               "recenttracks" <> VDict r)
  /\ lookup "track" [("track", VInt 7); ("name", VStr "Song A")]
     = Some (VInt 7)
  /\ flatten_tracks (VDict [("track", VInt 7); ("name", VStr "Song A")]) = [].
Proof.
  split; [intros r; discriminate|]. split; [reflexivity|].
  apply (flatten_tracks_track_not_records
           [("track", VInt 7); ("name", VStr "Song A")] (VInt 7));
    [intros r; discriminate | reflexivity
     | intros l; discriminate | intros d; discriminate].
Defined.

Lemma get_text_wrapped_run :
  (forall m, VInt 5 <> VDict m)
  /\ get_text (rt := plain_runtime VNone) (VDict [("#text", VInt 5)])
     = Ret (Some "5").
Proof.
  assert (H : forall m, VInt 5 <> VDict m) by (intros m; discriminate).
  split; [exact H|].
  rewrite (proj1 (get_text_wrapped (rt := plain_runtime VNone)
                    (VInt 5) [] [] H)).
  reflexivity.
Defined.

Lemma track_to_listen_five_keys_run :
  track_to_listen (rt := plain_runtime VNone)
    (("url", VStr "u") :: List.rev song_a)
  = Ret (Some listen_a).
Proof.
  rewrite <- (track_to_listen_five_keys (rt := plain_runtime VNone)
                song_a (("url", VStr "u") :: List.rev song_a)
                eq_refl eq_refl eq_refl eq_refl eq_refl).
  reflexivity.
Defined.

Lemma uts_text_reads_back_run :
  (String.length (str_of_Z 1000) <= 640)%nat
  /\ py_int (rt := plain_runtime VNone) (VStr (str_of_Z 1000)) = Ret 1000.
Proof.
  assert (H : (String.length (str_of_Z 1000) <= 640)%nat)
    by (vm_compute; lia).
  split; [exact H|].
  apply (uts_text_reads_back (rt := plain_runtime VNone) 1000 []
           (or_intror H)).
Defined.

Lemma listen_line_format_run :
  track_to_listen (rt := plain_runtime VNone) song_a = Ret (Some listen_a)
  /\ dumps (rt := plain_runtime VNone) listen_a = Ret listen_a_line
  /\ has_surrogate listen_a_line = false
  /\ fs (world_with_input "old") INPUT_FILE = Some "old"
  /\ exists (date : dict) (uts : value) (listened_at : Z)
            (track_name artist_name : string) (album_name : option string),
       py_get song_a "date" = VDict date /\
       lookup "uts" date = Some uts /\
       py_int (rt := plain_runtime VNone) uts = Ret listened_at /\
       get_text (rt := plain_runtime VNone) (py_get song_a "name")
       = Ret (Some track_name) /\
       get_text (rt := plain_runtime VNone) (py_get song_a "artist")
       = Ret (Some artist_name) /\
       get_text (rt := plain_runtime VNone) (py_get song_a "album")
       = Ret album_name /\
       listen_a_line
       = listen_line listened_at track_name artist_name album_name /\
       fst (write_tracks (rt := plain_runtime VNone) INPUT_FILE [song_a] 0
              (world_with_input "old")) = Ret 1%nat /\
       fs (snd (write_tracks (rt := plain_runtime VNone) INPUT_FILE [song_a] 0
                  (world_with_input "old"))) INPUT_FILE
       = Some ("old"
               ++ listen_line listened_at track_name artist_name album_name
               ++ nl).
Proof.
  repeat (split; [reflexivity|]).
  apply (listen_line_format (rt := plain_runtime VNone)
           song_a listen_a listen_a_line "old" INPUT_FILE
           (world_with_input "old") eq_refl eq_refl eq_refl eq_refl).
Defined.

Lemma written_plus_skipped_run :
  listens_of (rt := plain_runtime VNone) [song_a; song_b] = Ret [listen_a]
  /\ Forall2 (line_of (rt := plain_runtime VNone)) [listen_a] [listen_a_line]
  /\ exists written,
       fst (write_tracks (rt := plain_runtime VNone) OUTPUT_JSONL
              [song_a; song_b] 0 (world_with_input "{}")) = Ret written
       /\ (written + skipped (rt := plain_runtime VNone) [song_a; song_b]
           = 2)%nat
       /\ (written <= 2)%nat.
Proof.
  assert (L : Forall2 (line_of (rt := plain_runtime VNone))
                [listen_a] [listen_a_line])
    by (constructor; [split; reflexivity | constructor]).
  split; [reflexivity|]. split; [exact L|].
  apply (written_plus_skipped (rt := plain_runtime VNone)
           [song_a; song_b] [listen_a] [listen_a_line] OUTPUT_JSONL
           (world_with_input "{}") eq_refl L).
Defined.

Lemma main_input_failure_run :
  fs (World (fun _ => None) EmptyString) INPUT_FILE = None
  /\ exists e,
       main (rt := plain_runtime VNone) (World (fun _ => None) EmptyString)
       = (Raise e, World (fun _ => None) EmptyString)
       /\ (fs (World (fun _ => None) EmptyString) INPUT_FILE = None ->
           e = FileNotFoundError).
Proof.
  split; [reflexivity|].
  apply (main_input_failure (rt := plain_runtime VNone)
           (World (fun _ => None) EmptyString) (or_introl eq_refl)).
Defined.

Lemma main_conversion_failure_run :
  flatten_tracks export_infinite = ([song_a] ++ song_infinite :: [])%list
  /\ listens_of (rt := plain_runtime export_infinite) [song_a] = Ret [listen_a]
  /\ Forall2 (line_of (rt := plain_runtime export_infinite))
       [listen_a] [listen_a_line]
  /\ track_to_listen (rt := plain_runtime export_infinite) song_infinite
     = Raise OverflowError
  /\ fst (main (rt := plain_runtime export_infinite) (world_with_input "{}"))
     = Raise OverflowError
  /\ fs (snd (main (rt := plain_runtime export_infinite)
                (world_with_input "{}"))) OUTPUT_JSONL
     = Some (jsonl [listen_a_line])
  /\ fs (snd (main (rt := plain_runtime export_infinite)
                (world_with_input "{}"))) OUTPUT_ZIP = None
  /\ stdout (snd (main (rt := plain_runtime export_infinite)
                    (world_with_input "{}"))) = EmptyString.
Proof.
  assert (L : Forall2 (line_of (rt := plain_runtime export_infinite))
                [listen_a] [listen_a_line])
    by (constructor; [split; reflexivity | constructor]).
  split; [reflexivity|]. split; [reflexivity|]. split; [exact L|].
  split; [reflexivity|].
  apply (main_conversion_failure (rt := plain_runtime export_infinite)
           (world_with_input "{}") "{}" export_infinite
           [song_a] [] song_infinite OverflowError [listen_a] [listen_a_line]
           eq_refl eq_refl eq_refl eq_refl L eq_refl).
Defined.

Lemma main_write_failure_run :
  flatten_tracks export_surrogate = ([song_a] ++ song_surrogate :: [])%list
  /\ Forall2 (line_of (rt := plain_runtime export_surrogate))
       [listen_a] [listen_a_line]
  /\ track_to_listen (rt := plain_runtime export_surrogate) song_surrogate
     = Ret (Some (listen_record 4000 lone_surrogate "Artist F" None))
  /\ has_surrogate (listen_line 4000 lone_surrogate "Artist F" None) = true
  /\ fst (main (rt := plain_runtime export_surrogate) (world_with_input "{}"))
     = Raise UnicodeEncodeError
  /\ fs (snd (main (rt := plain_runtime export_surrogate)
                (world_with_input "{}"))) OUTPUT_JSONL
     = Some (jsonl [listen_a_line])
  /\ fs (snd (main (rt := plain_runtime export_surrogate)
                (world_with_input "{}"))) OUTPUT_ZIP = None
  /\ stdout (snd (main (rt := plain_runtime export_surrogate)
                    (world_with_input "{}"))) = EmptyString.
Proof.
  assert (L : Forall2 (line_of (rt := plain_runtime export_surrogate))
                [listen_a] [listen_a_line])
    by (constructor; [split; reflexivity | constructor]).
  split; [reflexivity|]. split; [exact L|]. split; [reflexivity|].
  split; [reflexivity|].
  apply (main_write_failure (rt := plain_runtime export_surrogate)
           (world_with_input "{}") "{}" export_surrogate
           [song_a] [] song_surrogate
           (listen_record 4000 lone_surrogate "Artist F" None)
           (listen_line 4000 lone_surrogate "Artist F" None)
           [listen_a] [listen_a_line]
           eq_refl eq_refl eq_refl eq_refl L eq_refl eq_refl eq_refl).
Defined.

Lemma main_success_report_run :
  listens_of (rt := plain_runtime export_example)
    (flatten_tracks export_example) = Ret [listen_a]
  /\ Forall2 (line_of (rt := plain_runtime export_example))
       [listen_a] [listen_a_line]
  /\ stdout (snd (main (rt := plain_runtime export_example)
                    (world_with_input "{}")))
     = "Listens written: 1" ++ nl ++ "Created: listenbrainz_import.zip" ++ nl.
Proof.
  assert (L : Forall2 (line_of (rt := plain_runtime export_example))
                [listen_a] [listen_a_line])
    by (constructor; [split; reflexivity | constructor]).
  split; [reflexivity|]. split; [exact L|].
  apply (main_success_report (rt := plain_runtime export_example)
           (world_with_input "{}") "{}" export_example [listen_a]
           [listen_a_line] eq_refl eq_refl eq_refl L).
Defined.

Lemma make_import_zip_member_run :
  INPUT_FILE <> OUTPUT_ZIP
  /\ fs (world_with_input "abc") INPUT_FILE = Some "abc"
  /\ fs (snd (make_import_zip (rt := plain_runtime VNone)
                INPUT_FILE OUTPUT_ZIP (world_with_input "abc"))) OUTPUT_ZIP
     = Some (plain_zip_bytes [("listens.jsonl", "abc")]).
Proof.
  assert (Hne : INPUT_FILE <> OUTPUT_ZIP) by discriminate.
  split; [exact Hne|]. split; [reflexivity|].
  apply (make_import_zip_member (rt := plain_runtime VNone)
           INPUT_FILE OUTPUT_ZIP "abc" (world_with_input "abc") Hne eq_refl).
Defined.

Lemma make_import_zip_missing_source_run :
  OUTPUT_JSONL <> OUTPUT_ZIP
  /\ fs (world_with_input "abc") OUTPUT_JSONL = None
  /\ fst (make_import_zip (rt := plain_runtime VNone)
            OUTPUT_JSONL OUTPUT_ZIP (world_with_input "abc"))
     = Raise FileNotFoundError
  /\ fs (snd (make_import_zip (rt := plain_runtime VNone)
                OUTPUT_JSONL OUTPUT_ZIP (world_with_input "abc"))) OUTPUT_ZIP
     = Some (plain_zip_bytes []).
Proof.
  assert (Hne : OUTPUT_JSONL <> OUTPUT_ZIP) by discriminate.
  split; [exact Hne|]. split; [reflexivity|].
  pose proof (make_import_zip_missing_source (rt := plain_runtime VNone)
                OUTPUT_JSONL OUTPUT_ZIP (world_with_input "abc")
                Hne eq_refl) as H.
  split; apply H.
Defined.

Lemma main_no_records_run :
  fs (world_with_input "7") INPUT_FILE = Some "7"
  /\ flatten_tracks (VInt 7) = []
  /\ fst (main (rt := plain_runtime (VInt 7)) (world_with_input "7")) = Ret tt
  /\ fs (snd (main (rt := plain_runtime (VInt 7)) (world_with_input "7")))
       OUTPUT_JSONL = Some EmptyString.
Proof.
  split; [reflexivity|]. split; [reflexivity|].
  pose proof (main_no_records (rt := plain_runtime (VInt 7))
                (world_with_input "7") "7" (VInt 7)
                eq_refl eq_refl eq_refl) as H.
  split; apply H.
Defined.

Lemma no_text_never_emitted_run :
  py_get [("name", VStr "n"); ("artist", VDict [("mbid", VStr "x")]);
          ("date", VDict [("uts", VStr "1")])] "artist"
  = VDict [("mbid", VStr "x")]
  /\ lookup "#text" [("mbid", VStr "x")] = None
  /\ forall listen,
       track_to_listen (rt := plain_runtime VNone)
         [("name", VStr "n"); ("artist", VDict [("mbid", VStr "x")]);
          ("date", VDict [("uts", VStr "1")])] <> Ret (Some listen).
Proof.
  split; [reflexivity|]. split; [reflexivity|].
  apply (no_text_never_emitted (rt := plain_runtime VNone)
           [("name", VStr "n"); ("artist", VDict [("mbid", VStr "x")]);
            ("date", VDict [("uts", VStr "1")])]
           [("mbid", VStr "x")] (or_introl eq_refl) eq_refl).
Defined.

Lemma uts_number_taken_as_is_run :
  now_playing song_flagged = false
  /\ lookup "uts" [("uts", VInt 3000)] = Some (VInt 3000)
  /\ track_to_listen (rt := plain_runtime VNone) song_flagged
     = Ret (Some (listen_record 3000 "Song C" "Artist C" None)).
Proof.
  assert (N1 : "Song C" <> EmptyString) by discriminate.
  assert (N2 : "Artist C" <> EmptyString) by discriminate.
  split; [reflexivity|]. split; [reflexivity|].
  apply (uts_number_taken_as_is (rt := plain_runtime VNone)
           song_flagged [("uts", VInt 3000)] (VInt 3000)
           "Song C" "Artist C" eq_refl eq_refl eq_refl eq_refl N1 eq_refl N2).
Defined.
